(** * samri.report.snr: batch statistics over volumetric maps

    A shallow embedding of [src/samri/report/snr.py]:
    [significant_signal], [iter_significant_signal], [base_metrics] and
    [iter_base_metrics], together with the parts of the Python standard
    library, numpy, scipy, pandas, nibabel and joblib they call.

    Modelling decisions.
    - Voxel values are IEEE binary64 numbers (the kernel's primitive floats),
      so NaN, rounding and overflow are those of numpy's float64.
    - Python exceptions are values of [exn]; a call that may raise returns
      a [result].
    - A substitution record is a [gmap string string].
    - The file system is a [gmap string file]; the only write of the program
      is the final [to_csv].
    - What the operating system decides ([mp.cpu_count()], the current
      directory and home directories behind [path.abspath(path.expanduser(.))],
      libm's [log10]) is gathered in [Env]. *)

From Stdlib Require Import ZArith Floats String Ascii List Lia.
From stdpp Require Import gmap strings list fin_maps.

Local Open Scope string_scope.

(** ** Exceptions and results *)

Inductive exn : Type :=
| KeyError (key : string)
| IndexError
| TypeError
| ValueError (msg : string)
| FileNotFoundError (p : string)
| ImageFileError (p : string)
| MaskError
| NotModelled (what : string).

Inductive result (A : Type) : Type :=
| Ok (a : A)
| Raise (e : exn).
Arguments Ok {A} a.
Arguments Raise {A} e.

#[export] Instance result_ret : MRet result := fun A a => Ok a.
#[export] Instance result_bind : MBind result := fun A B f m =>
  match m with
  | Ok a => f a
  | Raise e => Raise e
  end.

(** [[f x for x in l]] where [f] may raise: the first exception, in list
    order, is the one that surfaces. *)
Fixpoint for_each {A B : Type} (f : A -> result B) (l : list A) : result (list B) :=
  match l with
  | [] => Ok []
  | x :: l' => y ← f x; ys ← for_each f l'; Ok (y :: ys)
  end.

(** ** The environment *)

Record Env : Type := {
  cpu_count : Z;                          (* mp.cpu_count() *)
  abspath_expanduser : string -> string;  (* path.abspath(path.expanduser(p)) *)
  log10 : float -> float                  (* np.log10 on one float64 *)
}.

(** ** Strings *)

(** [str.lower()] on the ASCII letters. *)
Definition lower_ascii (c : ascii) : ascii :=
  let n := nat_of_ascii c in
  if (65 <=? n)%nat && (n <=? 90)%nat then ascii_of_nat (n + 32) else c.

Fixpoint lower (s : string) : string :=
  match s with
  | EmptyString => EmptyString
  | String c s' => String (lower_ascii c) (lower s')
  end.

(** [s.endswith(suffix)] *)
Definition endswith (s suffix : string) : bool :=
  (String.length suffix <=? String.length s)%nat &&
  String.eqb (substring (String.length s - String.length suffix)
                        (String.length suffix) s) suffix.

(** ** [str.format on the substitution record]

    The format string is read from left to right into literal text and
    replacement fields, each field being rendered when it is met, so that
    the first defect in reading order decides the exception. *)

Inductive token : Type :=
| TLit (text : string)
| TField (field : string)
| TError (e : exn).

Inductive scan_mode : Type :=
| InText (lit : string)
| InField (field : string).

Definition lit_token (lit : string) : list token :=
  match lit with
  | EmptyString => []
  | _ => [TLit lit]
  end.

Definition snoc (s : string) (c : ascii) : string := s ++ String c EmptyString.

Definition contains (c : ascii) (s : string) : bool :=
  existsb (Ascii.eqb c) (list_ascii_of_string s).

Fixpoint scan (m : scan_mode) (s : string) : list token :=
  match s with
  | EmptyString =>
      match m with
      | InText lit => lit_token lit
      | InField _ => [TError (ValueError "expected '}' before end of string")]
      end
  | String c s' =>
      match m with
      | InText lit =>
          if Ascii.eqb c "{" then
            match s' with
            | EmptyString =>
                lit_token lit ++ [TError (ValueError "Single '{' encountered in format string")]
            | String c' s'' =>
                if Ascii.eqb c' "{" then scan (InText (snoc lit "{")) s''
                else if Ascii.eqb c' "}" then lit_token lit ++ TField "" :: scan (InText "") s''
                else lit_token lit ++ scan (InField (String c' EmptyString)) s''
            end
          else if Ascii.eqb c "}" then
            match s' with
            | EmptyString =>
                lit_token lit ++ [TError (ValueError "Single '}' encountered in format string")]
            | String c' s'' =>
                if Ascii.eqb c' "}" then scan (InText (snoc lit "}")) s''
                else lit_token lit ++ [TError (ValueError "Single '}' encountered in format string")]
            end
          else scan (InText (snoc lit c)) s'
      | InField field =>
          if Ascii.eqb c "}" then TField field :: scan (InText "") s'
          else if Ascii.eqb c "{" then
            if contains ":" field
            then [TError (NotModelled "nested replacement field")]
            else [TError (ValueError "unexpected '{' in field name")]
          else scan (InField (snoc field c)) s'
      end
  end.

Definition tokenize (template : string) : list token := scan (InText "") template.

(** A replacement field is [key] followed by an optional rest: attribute or
    index access ([.], [[]), a conversion ([!]) or a format specification
    ([:]). *)
Definition is_special (c : ascii) : bool :=
  Ascii.eqb c "." || Ascii.eqb c "[" || Ascii.eqb c "!" || Ascii.eqb c ":".

Fixpoint split_field (field : string) : string * string :=
  match field with
  | EmptyString => (EmptyString, EmptyString)
  | String c rest =>
      if is_special c then (EmptyString, field)
      else let '(key, tail) := split_field rest in (String c key, tail)
  end.

Definition is_digit (c : ascii) : bool :=
  let n := nat_of_ascii c in (48 <=? n)%nat && (n <=? 57)%nat.

(** An empty or numeric key addresses the positional arguments, of which
    this call of [format] has none. *)
Definition positional (key : string) : bool :=
  forallb is_digit (list_ascii_of_string key).

Definition render_field (substitution : gmap string string) (field : string)
  : result string :=
  let '(key, rest) := split_field field in
  if positional key then Raise IndexError
  else match substitution !! key with
       | None => Raise (KeyError key)
       | Some value =>
           match rest with
           | EmptyString => Ok value
           | _ => Raise (NotModelled "attribute access, conversion or format specification")
           end
       end.

Fixpoint render (substitution : gmap string string) (tokens : list token)
  : result string :=
  match tokens with
  | [] => Ok ""
  | TLit text :: rest => out ← render substitution rest; Ok (text ++ out)
  | TField field :: rest =>
      value ← render_field substitution field;
      out ← render substitution rest;
      Ok (value ++ out)
  | TError e :: _ => Raise e
  end.

Definition format (template : string) (substitution : gmap string string)
  : result string :=
  render substitution (tokenize template).

(** The keys a format string refers to. *)
Definition field_key (t : token) : list string :=
  match t with
  | TField field =>
      let key := fst (split_field field) in
      if positional key then [] else [key]
  | _ => []
  end.

Definition placeholders (template : string) : list string :=
  concat (map field_key (tokenize template)).

(** Format strings made of literal text and plain named fields only. *)
Definition plain_token (t : token) : bool :=
  match t with
  | TLit _ => true
  | TField field =>
      let '(key, rest) := split_field field in
      negb (positional key) && String.eqb rest ""
  | TError _ => false
  end.

Definition plain (template : string) : bool :=
  forallb plain_token (tokenize template).

(** Lines 40-42 and 138-140: [if substitution: p = p.format( **substitution )],
    then [path.abspath(path.expanduser(p))]. An empty record is falsy, and the
    format string is then taken as it is. *)
Definition resolve (env : Env) (template : string)
    (substitution : gmap string string) : result string :=
  p ← (if decide (substitution = ∅) then Ok template
       else format template substitution);
  Ok (abspath_expanduser env p).

(** ** numpy on float64 *)

Local Open Scope float_scope.

(** [np.float64(n)] for a count [n]. *)
Definition float_of_nat (n : nat) : float :=
  PrimFloat.of_uint63 (Uint63.of_Z (Z.of_nat n)).

(** [ufunc.reduce] of [np.add]: the first element starts the accumulator,
    the others are added in memory order; the empty sum is 0. *)
Definition np_sum (l : list float) : float :=
  match l with
  | [] => 0
  | x :: l' => fold_left PrimFloat.add l' x
  end.

(** [np.mean]: sum, then true division by the count (0/0 = NaN on an
    empty array). *)
Definition np_mean (l : list float) : float :=
  np_sum l / float_of_nat (length l).

(** [np.std]: the root of the mean squared deviation from the mean. *)
Definition np_std (l : list float) : float :=
  let arrmean := np_mean l in
  PrimFloat.sqrt (np_mean (map (fun x => (x - arrmean) * (x - arrmean)) l)).

(** [np.min]: NaN if any element is NaN; no identity on an empty array. *)
Definition np_min (l : list float) : result float :=
  match l with
  | [] => Raise (ValueError
            "zero-size array to reduction operation minimum which has no identity")
  | x :: l' =>
      if existsb PrimFloat.is_nan l then Ok nan
      else Ok (fold_left (fun acc y => if y <? acc then y else acc) l' x)
  end.

(** The order numpy sorts by: ascending, NaN last. *)
Definition sorts_before (x y : float) : bool :=
  (x <? y) || (negb (PrimFloat.is_nan x) && PrimFloat.is_nan y).

Fixpoint insert_sorted (x : float) (l : list float) : list float :=
  match l with
  | [] => [x]
  | y :: l' => if sorts_before y x then y :: insert_sorted x l' else x :: y :: l'
  end.

Definition np_sort (l : list float) : list float :=
  fold_right insert_sorted [] l.

(** [np.median]: NaN as soon as one element is NaN; otherwise the mean of the
    middle element (odd count) or of the two middle elements (even count) of
    the sorted data. *)
Definition np_median (l : list float) : float :=
  if existsb PrimFloat.is_nan l then nan
  else
    let sorted := np_sort l in
    let n := length l in
    if Nat.even n
    then np_mean (firstn 2 (skipn (n / 2 - 1) sorted))
    else np_mean (firstn 1 (skipn (n / 2) sorted)).

(** [np.unique]: sort, then keep each element that differs ([!=]) from its
    predecessor. *)
Fixpoint drop_repeats (prev : float) (l : list float) : list float :=
  match l with
  | [] => []
  | x :: l' => if x =? prev then drop_repeats x l' else x :: drop_repeats x l'
  end.

Definition np_unique (l : list float) : list float :=
  match np_sort l with
  | [] => []
  | x :: l' => x :: drop_repeats x l'
  end.

(** [scipy.stats.mode(a, axis=None)], in the version whose result is indexed
    with [[0]]: every unique score is counted, and a score replaces the
    current one only when its count is strictly larger, so the smallest of
    several modal values wins. On an empty array both result arrays are
    empty. *)
Definition count_eq (score : float) (a : list float) : nat :=
  length (List.filter (fun x => x =? score) a).

Definition mode_step (a : list float) (acc : float * nat) (score : float)
  : float * nat :=
  let '(oldmostfreq, oldcounts) := acc in
  let counts := count_eq score a in
  ((if (oldcounts <? counts)%nat then score else oldmostfreq),
   Nat.max counts oldcounts).

Definition sps_mode (a : list float) : list float * list nat :=
  match a with
  | [] => ([], [])
  | _ =>
      let '(mostfrequent, counts) := fold_left (mode_step a) (np_unique a) (0, 0%nat) in
      ([mostfrequent], [counts])
  end.

(** [x[0]] on a one-dimensional array. *)
Definition getitem0 {A : Type} (x : list A) : result A :=
  match x with
  | [] => Raise IndexError
  | y :: _ => Ok y
  end.

(** ** Arrays *)

(** An image array: its shape and its voxels in C order. *)
Record ndarray : Type := {
  shape : list nat;
  voxels : list float
}.

(** Every [step]-th element of [l], the first one after [skip] elements. *)
Fixpoint every (step skip : nat) (l : list float) : list float :=
  match l with
  | [] => []
  | x :: l' =>
      match skip with
      | O => x :: every step (step - 1) l'
      | S k => every step k l'
      end
  end.

(** [for i in data.T]: the transpose has the last axis first, so the loop
    runs over the indices of the last axis; each [i] holds the voxels with
    that last index. A zero-dimensional array cannot be iterated. *)
Definition iter_T (data : ndarray) : result (list (list float)) :=
  match last (shape data) with
  | None => Raise TypeError
  | Some t => Ok (map (fun k => every t k (voxels data)) (seq 0 t))
  end.

(** What the statistics of mode (a) work on: a plain array, or a
    [np.ma.masked_array] whose entries carry a flag, [true] for masked
    (excluded). *)
Inductive array : Type :=
| Plain (l : list float)
| Masked (l : list (float * bool)).

(** [np.ma.masked_array(data, mask=mask)]: a mask of one element is resized
    to the data, a mask of the same size is reshaped to it, any other size
    is refused. *)
Definition masked_array (data : list float) (mask : list bool)
  : result (list (float * bool)) :=
  match mask with
  | [m] => Ok (map (fun x => (x, m)) data)
  | _ =>
      if (length mask =? length data)%nat then Ok (zip data mask)
      else Raise MaskError
  end.

(** The unmasked values. *)
Definition compressed (l : list (float * bool)) : list float :=
  map fst (List.filter (fun e : float * bool => negb (snd e)) l).

(** [data[np.nonzero(data)]]: on a masked array, masked entries count as
    zero. *)
Definition nonzero (data : array) : list float :=
  match data with
  | Plain l => List.filter (fun x => negb (x =? 0)) l
  | Masked l => List.filter (fun x => negb (x =? 0)) (compressed l)
  end.

(** [data[data == 0] = data_min]: a comparison with a masked entry is itself
    masked and does not select it. *)
Definition replace_zeros (data : array) (data_min : float) : array :=
  match data with
  | Plain l => Plain (map (fun x => if x =? 0 then data_min else x) l)
  | Masked l =>
      Masked (map (fun e : float * bool => if negb (snd e) && (fst e =? 0)
                            then (data_min, snd e) else e) l)
  end.

(** [-np.log10(data)]: on a masked array [log10] also masks the entries
    outside its domain (those [<= 0]). *)
Definition neg_log10 (env : Env) (data : array) : array :=
  match data with
  | Plain l => Plain (map (fun x => - log10 env x) l)
  | Masked l =>
      Masked (map (fun e : float * bool => (- log10 env (fst e), snd e || (fst e <=? 0))) l)
  end.

(** A reduction of a masked array with no unmasked entry is the constant
    [np.ma.masked]. *)
Inductive scalar : Type :=
| Num (x : float)
| MaskedConstant.

(** [np.ma.median(data, axis=None)] *)
Definition ma_median (data : array) : scalar :=
  match data with
  | Plain l => Num (np_median l)
  | Masked l =>
      match compressed l with
      | [] => MaskedConstant
      | u => Num (np_median u)
      end
  end.

(** [np.mean(data)]: on a masked array, the sum with masked entries filled
    by 0, times 1.0, over the count of unmasked entries. *)
Definition mean (data : array) : scalar :=
  match data with
  | Plain l => Num (np_mean l)
  | Masked l =>
      match compressed l with
      | [] => MaskedConstant
      | u => Num (np_sum (map (fun e : float * bool => if snd e then 0 else fst e) l) * 1
                  / float_of_nat (length u))
      end
  end.

Local Close Scope float_scope.

(** ** pandas *)

Inductive cell : Type :=
| CNum (x : scalar)
| CStr (s : string)
| CMissing.

(** A data frame: its number of rows and its columns by name. Column order
    and the index labels are left out. *)
Record DataFrame : Type := {
  nrows : nat;
  columns : gmap string (list cell)
}.

(** [pd.DataFrame.from_items(items)] for columns of one length. *)
Definition from_items (items : list (string * list cell)) : DataFrame :=
  {| nrows := match items with
              | [] => 0
              | (_, values) :: _ => length values
              end;
     columns := list_to_map items |}.

(** [df[field] = values] with a list: its length must be that of the index. *)
Definition setitem_list (df : DataFrame) (field : string) (values : list cell)
  : result DataFrame :=
  if (length values =? nrows df)%nat
  then Ok {| nrows := nrows df; columns := <[field := values]> (columns df) |}
  else Raise (ValueError "Length of values does not match length of index").

(** [df[field] = value] with one string: the value fills the column. *)
Definition setitem_scalar (df : DataFrame) (field : string) (value : string)
  : DataFrame :=
  {| nrows := nrows df;
     columns := <[field := replicate (nrows df) (CStr value)]> (columns df) |}.

(** [pd.concat(frames)]: rows are stacked; the columns are the union of the
    frames' columns, and a frame without a column contributes missing cells
    to it. An empty list of frames is refused. *)
Definition column_or_missing (field : string) (df : DataFrame) : list cell :=
  default (replicate (nrows df) CMissing) (columns df !! field).

Definition all_columns (frames : list DataFrame) : gset string :=
  ⋃ (map (fun df => dom (columns df)) frames).

Definition pd_concat (frames : list DataFrame) : result DataFrame :=
  match frames with
  | [] => Raise (ValueError "No objects to concatenate")
  | _ =>
      Ok {| nrows := foldr (fun df n => nrows df + n) 0 frames;
            columns := set_to_map
                         (fun field => (field, concat (map (column_or_missing field) frames)))
                         (all_columns frames) |}
  end.

(** [substitution[field]] *)
Definition getitem (substitution : gmap string string) (field : string)
  : result string :=
  match substitution !! field with
  | Some value => Ok value
  | None => Raise (KeyError field)
  end.

Definition metadata_fields : list string :=
  ["subject"; "session"; "task"; "acquisition"].

(** ** The file system and nibabel *)

Inductive file : Type :=
| Nifti (img : ndarray)
| Csv (df : DataFrame)
| Other.

(** [nib.load(p).get_data()] *)
Definition nib_load (fs : gmap string file) (p : string) : result ndarray :=
  match fs !! p with
  | None => Raise (FileNotFoundError p)
  | Some (Nifti img) => Ok img
  | Some _ => Raise (ImageFileError p)
  end.

(** [df.to_csv(p)] *)
Definition to_csv (fs : gmap string file) (df : DataFrame) (p : string)
  : gmap string file :=
  <[p := Csv df]> fs.

(** ** joblib *)

(** [Parallel(n_jobs=n_jobs, backend="threading")(jobs)]: zero workers are
    refused before any job starts; otherwise the results come back in the
    order of the jobs, and an exception of a job is raised again in the
    caller. *)
Definition Parallel {A : Type} (n_jobs : Z) (jobs : list (result A))
  : result (list A) :=
  if (n_jobs =? 0)%Z
  then Raise (ValueError "n_jobs == 0 in Parallel has no meaning")
  else for_each (fun job => job) jobs.

(** The number of workers joblib runs for a given [n_jobs] on a machine
    with [cpus] processors: a negative [n_jobs] counts back from [cpus + 1]. *)
Definition effective_n_jobs (cpus n_jobs : Z) : result Z :=
  if (n_jobs =? 0)%Z
  then Raise (ValueError "n_jobs == 0 in Parallel has no meaning")
  else if (n_jobs <? 0)%Z then Ok (Z.max (cpus + 1 + n_jobs) 1)
  else Ok n_jobs.

(** ** samri.report.snr *)

(** Lines 91 and 197: [n_jobs = mp.cpu_count()-2] *)
Definition n_jobs (env : Env) : Z := cpu_count env - 2.

(** Lines 47-52: with a mask path, the mask is loaded, voxels below 0.5 are
    masked, and the entries that are not NaN are selected; with none, the
    data are left as loaded. *)
Definition apply_mask (env : Env) (fs : gmap string file)
    (data : list float) (mask_path : string) : result array :=
  match mask_path with
  | EmptyString => Ok (Plain data)
  | _ =>
      let mask_path := abspath_expanduser env mask_path in
      mask ← nib_load fs mask_path;
      let mask := map (fun m => (m <? 0.5)%float) (voxels mask) in
      data ← masked_array data mask;
      Ok (Masked (List.filter (fun e : float * bool => negb (PrimFloat.is_nan (fst e))) data))
  end.

(** Lines 53-62 *)
Definition signal_statistics (env : Env) (data : array) : result (scalar * scalar) :=
  data_min ← np_min (nonzero data);
  let data_min := (data_min * 0x1.fae147ae147aep-1)%float in
  let data := replace_zeros data data_min in
  let data := neg_log10 env data in
  let median := ma_median data in
  let mean := mean data in
  Ok (mean, median).

(** Lines 14-62 *)
Definition significant_signal (env : Env) (fs : gmap string file)
    (data_path : string) (substitution : gmap string string)
    (mask_path : string) : result (scalar * scalar) :=
  data_path ← resolve env data_path substitution;
  match nib_load fs data_path with
  | Raise (FileNotFoundError _) => Ok (Num nan, Num nan)
  | Raise e => Raise e
  | Ok img =>
      data ← apply_mask env fs (voxels img) mask_path;
      signal_statistics env data
  end.

(** Lines 103-107 and 166-170: [except KeyError: pass] *)
Definition except_KeyError (attempt : result DataFrame) (df : DataFrame)
  : result DataFrame :=
  match attempt with
  | Raise (KeyError _) => Ok df
  | other => other
  end.

(** Lines 108-113 and 205-210. The first component is [None] when the block
    ends normally and the raised exception otherwise. *)
Definition save (env : Env) (fs : gmap string file) (df : DataFrame)
    (save_as : string) : option exn * gmap string file :=
  match save_as with
  | EmptyString => (None, fs)
  | _ =>
      let save_as := abspath_expanduser env save_as in
      if endswith (lower save_as) ".csv"
      then (None, to_csv fs df save_as)
      else (Some (ValueError "Please specify an output path ending in any one of .csv."), fs)
  end.

(** Lines 104-107, the body of the loop over the metadata fields:
    [try: df[field] = [i[field] for i in substitutions]], [except KeyError: pass]. *)
Definition add_metadata_column (substitutions : list (gmap string string))
    (df : DataFrame) (field : string) : result DataFrame :=
  except_KeyError
    (values ← for_each (fun i => getitem i field) substitutions;
     setitem_list df field (map CStr values))
    df.

(** Lines 64-114. The result is what the call returns or raises, and the
    file system it leaves. *)
Definition iter_significant_signal (env : Env) (fs : gmap string file)
    (file_template : string) (substitutions : list (gmap string string))
    (mask_path save_as : string) : result DataFrame * gmap string file :=
  let n_jobs := n_jobs env in
  match Parallel n_jobs
          (map (fun substitution =>
                  significant_signal env fs file_template substitution mask_path)
               substitutions) with
  | Raise e => (Raise e, fs)
  | Ok iter_data =>
      let df_items :=
        [("Mean", map (fun i => CNum (fst i)) iter_data);
         ("Median", map (fun i => CNum (snd i)) iter_data)] in
      let df := from_items df_items in
      match foldl (fun df field => df ← df; add_metadata_column substitutions df field)
                  (Ok df) metadata_fields with
      | Raise e => (Raise e, fs)
      | Ok df =>
          match save env fs df save_as with
          | (Some e, fs') => (Raise e, fs')
          | (None, fs') => (Ok df, fs')
          end
      end
  end.

(** Lines 145-157: the loop over the series axis, appending to the four
    lists. *)
Fixpoint metrics_loop (data : list (list float))
    (stds means medians modes : list float)
  : result (list float * list float * list float * list float) :=
  match data with
  | [] => Ok (stds, means, medians, modes)
  | i :: data' =>
      let i_std := np_std i in
      let stds := (stds ++ [i_std])%list in
      let i_mean := np_mean i in
      let means := (means ++ [i_mean])%list in
      let i_median := np_median i in
      let medians := (medians ++ [i_median])%list in
      let '(i_mode, _) := sps_mode i in
      i_mode0 ← getitem0 i_mode;
      let modes := (modes ++ [i_mode0])%list in
      metrics_loop data' stds means medians modes
  end.

Definition float_column (values : list float) : list cell :=
  map (fun x => CNum (Num x)) values.

(** Lines 167-170, the body of the loop over the metadata fields:
    [try: df[field] = substitution[field]], [except KeyError: pass]. *)
Definition add_metadata_value (substitution : gmap string string)
    (df : DataFrame) (field : string) : result DataFrame :=
  except_KeyError
    (value ← getitem substitution field;
     Ok (setitem_scalar df field value))
    df.

(** Lines 116-171 *)
Definition base_metrics (env : Env) (fs : gmap string file)
    (file_path : string) (substitution : gmap string string)
  : result DataFrame :=
  file_path ← resolve env file_path substitution;
  let file_path := abspath_expanduser env file_path in
  data ← nib_load fs file_path;
  data ← iter_T data;
  '(stds, means, medians, modes) ← metrics_loop data [] [] [] [];
  let df_items :=
    [("Mean", float_column means);
     ("Median", float_column medians);
     ("Mode", float_column modes);
     ("Standard Deviation", float_column stds)] in
  let df := from_items df_items in
  foldl (fun df field => df ← df; add_metadata_value substitution df field)
        (Ok df) metadata_fields.

(** Lines 173-211 *)
Definition iter_base_metrics (env : Env) (fs : gmap string file)
    (file_template : string) (substitutions : list (gmap string string))
    (save_as : string) : result DataFrame * gmap string file :=
  let n_jobs := n_jobs env in
  match Parallel n_jobs
          (map (fun substitution =>
                  base_metrics env fs file_template substitution)
               substitutions) with
  | Raise e => (Raise e, fs)
  | Ok base_metrics_data =>
      match pd_concat base_metrics_data with
      | Raise e => (Raise e, fs)
      | Ok df =>
          match save env fs df save_as with
          | (Some e, fs') => (Raise e, fs')
          | (None, fs') => (Ok df, fs')
          end
      end
  end.

(** ** A concrete environment

    Four processors, paths that are already absolute and expanded, and a
    [log10] computed from the binary exponent and a series for the
    logarithm of the mantissa. *)

Local Open Scope float_scope.

(** [2 * (t + t^3/3 + t^5/5 + ...)], with [t = (m-1)/(m+1)]: the natural
    logarithm of [m]. *)
Fixpoint atanh_series (terms : nat) (t2 power : float) (k : float) : float :=
  match terms with
  | O => 0
  | S n => power / k + atanh_series n t2 (power * t2) (k + 2)
  end.

Definition ln_mantissa (m : float) : float :=
  let t := (m - 1) / (m + 1) in
  2 * atanh_series 40 (t * t) t 1.

Definition log10_series (x : float) : float :=
  if PrimFloat.is_nan x then nan
  else if x <? 0 then nan
  else if x =? 0 then neg_infinity
  else if x =? infinity then infinity
  else
    let '(m, e) := Z.frexp x in
    (PrimFloat.of_uint63 (Uint63.of_Z (Z.abs e)) * (if (e <? 0)%Z then -1 else 1)
       * 0x1.62e42fefa39efp-1
     + ln_mantissa m) / 0x1.26bb1bbb55516p+1.

Local Close Scope float_scope.

Definition env0 : Env :=
  {| cpu_count := 4;
     abspath_expanduser := fun p => p;
     log10 := log10_series |}.

(** ** Vocabulary of the statements *)

(** The column of a metadata field, when every record has the key. *)
Definition metadata_column (field : string) (subs : list (gmap string string))
  : list cell :=
  map (fun s : gmap string string => CStr (default "" (s !! field))) subs.

(** The table assembled from the per-record results [iter_data]. *)
Definition assembled (subs : list (gmap string string))
    (iter_data : list (scalar * scalar)) (df : DataFrame) : Prop :=
  nrows df = length subs /\
  forall f,
    columns df !! f =
    if decide (f ∈ metadata_fields)
    then (if decide (Forall (fun s : gmap string string => is_Some (s !! f)) subs)
          then Some (metadata_column f subs) else None)
    else if decide (f = "Mean") then Some (map (fun i => CNum (fst i)) iter_data)
    else if decide (f = "Median") then Some (map (fun i => CNum (snd i)) iter_data)
    else None.

(** The mode that the loop of [base_metrics] appends for a slice: the first
    entry of the first array of [sps_mode]. *)
Definition mode_of (i : list float) : float :=
  fst (fold_left (mode_step i) (np_unique i) (0%float, 0)).

(** The reading of the metadata columns under which a column is present as
    soon as one record has the key. *)
Definition column_if_any_record (subs : list (gmap string string))
    (df : DataFrame) : Prop :=
  forall f, f ∈ metadata_fields ->
    (exists s, s ∈ subs /\ is_Some (s !! f)) ->
    is_Some (columns df !! f).

(** ** Example data *)

(** A small map of p-values with a zero background, and a mask that keeps
    the three voxels of the structure. *)
Definition pmap : ndarray :=
  {| shape := [2; 3; 1];
     voxels := [0; 0x1p-4; 0x1p-7; 0; 0x1p-2; 0]%float |}.

Definition roi : ndarray :=
  {| shape := [2; 3; 1];
     voxels := [0; 1; 1; 0; 1; 0]%float |}.

(** A map that is zero everywhere. *)
Definition zeros : ndarray :=
  {| shape := [2; 3; 1];
     voxels := [0; 0; 0; 0; 0; 0]%float |}.

(** A map with one NaN voxel. *)
Definition pmap_nan : ndarray :=
  {| shape := [2; 3; 1];
     voxels := [0; 0x1p-4; nan; 0; 0x1p-2; 0]%float |}.

(** A series of two volumes of three voxels each: 0.1 everywhere in the
    first, 2 everywhere in the second. *)
Definition series : ndarray :=
  {| shape := [3; 1; 1; 2];
     voxels := [0x1.999999999999ap-4; 2; 0x1.999999999999ap-4; 2;
                0x1.999999999999ap-4; 2]%float |}.

Definition fs0 : gmap string file :=
  {[ "/data/sub-a.nii" := Nifti pmap;
     "/data/sub-a_bold.nii" := Nifti series;
     "/data/sub-n.nii" := Nifti pmap_nan;
     "/data/sub-z.nii" := Nifti zeros;
     "/roi.nii" := Nifti roi ]}.

Definition sub_a : gmap string string := {[ "subject" := "a"; "session" := "ofM" ]}.
Definition sub_b : gmap string string := {[ "subject" := "b" ]}.
Definition sub_n : gmap string string := {[ "subject" := "n" ]}.
Definition sub_z : gmap string string := {[ "subject" := "z" ]}.

(** A machine with two processors. *)
Definition env_two_cpus : Env :=
  {| cpu_count := 2;
     abspath_expanduser := fun p => p;
     log10 := log10_series |}.

(** A mask on a coarser grid, and a file system that also holds it. *)
Definition roi_coarse : ndarray :=
  {| shape := [1; 3; 1];
     voxels := [0; 1; 1]%float |}.

Definition fs_coarse : gmap string file :=
  <["/roi-coarse.nii" := Nifti roi_coarse]> fs0.

(** Two entries of masked arrays that carry the same flag and, when they are
    not masked, the same value. *)
Definition same_unmasked (e e' : float * bool) : Prop :=
  snd e = snd e' /\ (snd e = false -> fst e = fst e').

(** The map [pmap] with a background of 0.5 instead of 0 outside the
    structure. *)
Definition pmap_background : ndarray :=
  {| shape := [2; 3; 1];
     voxels := [0.5; 0x1p-4; 0x1p-7; 0.5; 0x1p-2; 0.5]%float |}.

Definition fs_background : gmap string file :=
  <["/data/sub-a.nii" := Nifti pmap_background]> fs0.

(** The names of the statistic columns of mode (b). *)
Definition statistic_fields : list string :=
  ["Mean"; "Median"; "Mode"; "Standard Deviation"].

(** The cells a record contributes to a metadata column of mode (b): its
    value in each of its rows, or missing cells when it lacks the key. *)
Definition metadata_block (f : string) (s : gmap string string) (rows : nat)
  : list cell :=
  replicate rows (match s !! f with
                  | Some value => CStr value
                  | None => CMissing
                  end).

(** A series of two volumes of three voxels each, with one NaN voxel in the
    second volume. *)
Definition series_nan : ndarray :=
  {| shape := [3; 1; 1; 2];
     voxels := [1; 2; 1; nan; 1; 2]%float |}.

Definition fs_nan : gmap string file :=
  <["/data/sub-n_bold.nii" := Nifti series_nan]> fs0.

(** * Properties *)

(** ** The result monad and loops that may raise *)

Section ForEach.
Context {A B : Type} (f : A -> result B).

Lemma for_each_Ok (l : list A) (rs : list B) :
  for_each f l = Ok rs <-> Forall2 (fun x r => f x = Ok r) l rs.
Proof.
  revert rs. induction l as [|x l IH]; intros rs; simpl.
  - split.
    + intros [= <-]. constructor.
    + intros H. inversion H. reflexivity.
  - split.
    + destruct (f x) as [y|e] eqn:Hx; simpl; [|discriminate].
      destruct (for_each f l) as [ys|e] eqn:Hl; simpl; [|discriminate].
      intros [= <-]. constructor; [assumption|]. apply IH. reflexivity.
    + intros H. inversion H as [|? r ? rs' Hx Hl]; subst.
      rewrite Hx. simpl. apply IH in Hl. rewrite Hl. reflexivity.
Qed.

Lemma for_each_total (l : list A) :
  Forall (fun x => exists r, f x = Ok r) l ->
  exists rs, for_each f l = Ok rs.
Proof.
  induction 1 as [|x l [r Hx] _ [rs Hl]]; simpl.
  - eexists. reflexivity.
  - rewrite Hx. simpl. rewrite Hl. simpl. eexists. reflexivity.
Qed.

Lemma for_each_length (l : list A) (rs : list B) :
  for_each f l = Ok rs -> length rs = length l.
Proof.
  intros H. apply for_each_Ok in H. symmetry. eapply Forall2_length, H.
Qed.

Lemma for_each_lookup (l : list A) (rs : list B) (i : nat) (x : A) :
  for_each f l = Ok rs -> l !! i = Some x ->
  exists r, f x = Ok r /\ rs !! i = Some r.
Proof.
  intros H Hi. apply for_each_Ok in H.
  destruct (Forall2_lookup_l _ _ _ _ _ H Hi) as (r & Hr & Hx).
  exists r. split; assumption.
Qed.

(** The exception that surfaces is the one of the first failing element. *)
Lemma for_each_first_failure (pre post : list A) (x : A) (e : exn) :
  Forall (fun y => exists r, f y = Ok r) pre ->
  f x = Raise e ->
  for_each f (pre ++ x :: post) = Raise e.
Proof.
  induction 1 as [|y pre [r Hy] _ IH]; intros Hx; simpl.
  - rewrite Hx. reflexivity.
  - rewrite Hy. simpl. rewrite (IH Hx). reflexivity.
Qed.

(** One failing element is enough for the loop to raise. *)
Lemma for_each_failure (l : list A) (x : A) (e : exn) :
  x ∈ l -> f x = Raise e -> exists e', for_each f l = Raise e'.
Proof.
  induction l as [|y l IH]; intros Hin Hx.
  - inversion Hin.
  - simpl. destruct (f y) as [r|e'] eqn:Hy; simpl; [|eexists; reflexivity].
    apply elem_of_cons in Hin as [->|Hin]; [congruence|].
    destruct (IH Hin Hx) as [e' ->]. simpl. eexists. reflexivity.
Qed.
End ForEach.

Lemma Parallel_for_each {A B : Type} (f : A -> result B) (n : Z) (l : list A) :
  n <> 0%Z -> Parallel n (map f l) = for_each f l.
Proof.
  intros Hn. unfold Parallel.
  destruct (Z.eqb_spec n 0) as [|_]; [contradiction|].
  induction l as [|x l IH]; simpl; [reflexivity|].
  rewrite IH. reflexivity.
Qed.

Lemma Parallel_no_worker {A : Type} (jobs : list (result A)) :
  Parallel 0 jobs = Raise (ValueError "n_jobs == 0 in Parallel has no meaning").
Proof. reflexivity. Qed.

(** ** Formatting and path resolution *)

Example format_two_fields :
  format "sub-{subject}/ses-{session}.nii"
         (<["subject" := "5691"]> (<["session" := "ofM"]> ∅))
  = Ok "sub-5691/ses-ofM.nii".
Proof. vm_compute. reflexivity. Qed.

Example format_missing_key :
  format "sub-{subject}/ses-{session}.nii" (<["subject" := "5691"]> ∅)
  = Raise (KeyError "session").
Proof. vm_compute. reflexivity. Qed.

Example format_escaped_braces :
  format "{{x}}-{a}" (<["a" := "1"]> ∅) = Ok "{x}-1".
Proof. vm_compute. reflexivity. Qed.

Example format_single_brace :
  format "a}b" (<["a" := "1"]> ∅)
  = Raise (ValueError "Single '}' encountered in format string").
Proof. vm_compute. reflexivity. Qed.

Example placeholders_of_template :
  placeholders "{data_dir}/sub-{subject}/ses-{session}_{0}.nii"
  = ["data_dir"; "subject"; "session"].
Proof. vm_compute. reflexivity. Qed.

Lemma render_field_missing (d : gmap string string) (field k : string) :
  k ∈ field_key (TField field) -> d !! k = None ->
  render_field d field = Raise (KeyError k).
Proof.
  unfold field_key, render_field.
  destruct (split_field field) as [key rest]. simpl.
  destruct (positional key); intros Hin Hk.
  - inversion Hin.
  - apply list_elem_of_singleton in Hin as ->. rewrite Hk. reflexivity.
Qed.

(** A referenced key that the record lacks makes rendering raise. *)
Lemma render_missing (d : gmap string string) (tokens : list token) (k : string) :
  k ∈ concat (map field_key tokens) -> d !! k = None ->
  exists e, render d tokens = Raise e.
Proof.
  induction tokens as [|t tokens IH]; simpl; intros Hin Hk.
  - inversion Hin.
  - destruct t as [text|field|e].
    + destruct (IH Hin Hk) as [e ->]. simpl. eexists. reflexivity.
    + apply elem_of_app in Hin as [Hin|Hin].
      * rewrite (render_field_missing _ _ _ Hin Hk). simpl. eexists. reflexivity.
      * destruct (render_field d field); simpl; [|eexists; reflexivity].
        destruct (IH Hin Hk) as [e ->]. simpl. eexists. reflexivity.
    + eexists. reflexivity.
Qed.

(** In a format string of literal text and plain named fields, the exception
    is the [KeyError] of the first missing key. *)
Lemma render_plain_missing (d : gmap string string) (tokens : list token) (k : string) :
  forallb plain_token tokens = true ->
  k ∈ concat (map field_key tokens) -> d !! k = None ->
  exists k', render d tokens = Raise (KeyError k') /\
             k' ∈ concat (map field_key tokens) /\ d !! k' = None.
Proof.
  induction tokens as [|t tokens IH]; simpl; intros Hplain Hin Hk.
  - inversion Hin.
  - apply andb_prop in Hplain as [Ht Hplain].
    destruct t as [text|field|e]; simpl in *; [| |discriminate].
    + destruct (IH Hplain Hin Hk) as (k' & -> & Hin' & Hk').
      exists k'. auto.
    + unfold render_field.
      destruct (split_field field) as [key rest] eqn:Hsplit. simpl in *.
      apply andb_prop in Ht as [Hpos Hrest].
      apply negb_true_iff in Hpos. rewrite Hpos in *.
      apply String.eqb_eq in Hrest as ->.
      destruct (d !! key) as [v|] eqn:Hkey; simpl.
      * apply elem_of_cons in Hin as [->|Hin]; [congruence|].
        destruct (IH Hplain Hin Hk) as (k' & -> & Hin' & Hk').
        exists k'. simpl. repeat split; [|assumption]. apply elem_of_cons. auto.
      * exists key. repeat split; [|assumption]. apply elem_of_cons. auto.
Qed.

(** An empty record is falsy: the format string is not rendered at all. *)
Lemma resolve_empty (env : Env) (template : string) :
  resolve env template ∅ = Ok (abspath_expanduser env template).
Proof. unfold resolve. rewrite decide_True by reflexivity. reflexivity. Qed.

Lemma resolve_nonempty (env : Env) (template : string) (d : gmap string string) :
  d <> ∅ ->
  resolve env template d = p ← format template d; Ok (abspath_expanduser env p).
Proof. intros Hd. unfold resolve. rewrite decide_False by assumption. reflexivity. Qed.

Lemma significant_signal_resolve_failure (env : Env) (fs : gmap string file)
    (template : string) (d : gmap string string) (mask_path : string) (e : exn) :
  resolve env template d = Raise e ->
  significant_signal env fs template d mask_path = Raise e.
Proof. intros H. unfold significant_signal. rewrite H. reflexivity. Qed.

Lemma base_metrics_resolve_failure (env : Env) (fs : gmap string file)
    (template : string) (d : gmap string string) (e : exn) :
  resolve env template d = Raise e ->
  base_metrics env fs template d = Raise e.
Proof. intros H. unfold base_metrics. rewrite H. reflexivity. Qed.

(** C6, as stated, fails on the empty record: the format string refers to
    [subject], the record has no such key, and resolution returns the text of
    the format string as the path. *)
Lemma empty_record_resolves_to_template_text :
  "subject" ∈ placeholders "/data/sub-{subject}.nii" /\
  (∅ : gmap string string) !! "subject" = None /\
  resolve env0 "/data/sub-{subject}.nii" ∅ = Ok "/data/sub-{subject}.nii".
Proof.
  split; [|split].
  - vm_compute. apply list_elem_of_here.
  - apply lookup_empty.
  - apply resolve_empty.
Qed.

(** C6 (amended): for a record that is not empty and lacks a key the format
    string refers to, path resolution raises, and the exception surfaces from
    both [significant_signal] and [base_metrics]; it is the [KeyError] of a
    missing key when the format string has only literal text and plain named
    fields. For the empty record the format string itself, made absolute, is
    the path. *)
Theorem resolve_missing_key (env : Env) (template : string)
    (d : gmap string string) :
  (d = ∅ -> resolve env template d = Ok (abspath_expanduser env template)) /\
  (d <> ∅ ->
   forall k, k ∈ placeholders template -> d !! k = None ->
   exists e,
     resolve env template d = Raise e /\
     (forall fs mask_path, significant_signal env fs template d mask_path = Raise e) /\
     (forall fs, base_metrics env fs template d = Raise e) /\
     (plain template = true ->
      exists k', e = KeyError k' /\ k' ∈ placeholders template /\ d !! k' = None)).
Proof.
  split.
  - intros ->. apply resolve_empty.
  - intros Hd k Hin Hk.
    destruct (render_missing d (tokenize template) k Hin Hk) as [e He].
    assert (Hres : resolve env template d = Raise e).
    { rewrite resolve_nonempty by assumption. unfold format. rewrite He. reflexivity. }
    exists e. split; [assumption|]. split; [|split].
    + intros fs mask_path. apply significant_signal_resolve_failure, Hres.
    + intros fs. apply base_metrics_resolve_failure, Hres.
    + intros Hplain.
      destruct (render_plain_missing d (tokenize template) k Hplain Hin Hk)
        as (k' & He' & Hin' & Hk').
      exists k'. split; [congruence|]. split; assumption.
Qed.

Lemma resolve_missing_key_witness :
  exists e,
    resolve env0 "/data/sub-{subject}_ses-{session}.nii" {["subject" := "5691"]} = Raise e /\
    (forall fs mask_path,
       significant_signal env0 fs "/data/sub-{subject}_ses-{session}.nii"
         {["subject" := "5691"]} mask_path = Raise e) /\
    (forall fs,
       base_metrics env0 fs "/data/sub-{subject}_ses-{session}.nii"
         {["subject" := "5691"]} = Raise e) /\
    (plain "/data/sub-{subject}_ses-{session}.nii" = true ->
     exists k', e = KeyError k' /\
                k' ∈ placeholders "/data/sub-{subject}_ses-{session}.nii" /\
                ({["subject" := "5691"]} : gmap string string) !! k' = None).
Proof.
  apply (proj2 (resolve_missing_key env0 "/data/sub-{subject}_ses-{session}.nii"
                  {["subject" := "5691"]})) with (k := "session").
  - intros H. apply (f_equal (fun m : gmap string string => m !! "subject")) in H.
    vm_compute in H. discriminate.
  - vm_compute. apply list_elem_of_further, list_elem_of_here.
  - vm_compute. reflexivity.
Defined.

(** ** The table of mode (a) *)

Lemma for_each_getitem (field : string) (subs : list (gmap string string)) :
  for_each (fun i => getitem i field) subs =
  if decide (Forall (fun s : gmap string string => is_Some (s !! field)) subs)
  then Ok (map (fun s : gmap string string => default "" (s !! field)) subs)
  else Raise (KeyError field).
Proof.
  induction subs as [|s subs IH]; cbn [for_each map].
  - destruct (decide _) as [_|Hnot]; [reflexivity|].
    exfalso. apply Hnot. constructor.
  - assert (Hget : getitem s field = match s !! field with
                                      | Some v => Ok v
                                      | None => Raise (KeyError field)
                                      end) by reflexivity.
    rewrite Hget. clear Hget.
    destruct (s !! field) as [v|] eqn:Hs; cbn [mbind result_bind].
    + rewrite IH. destruct (decide (Forall _ subs)) as [Hall|Hnot];
        destruct (decide (Forall _ (s :: subs))) as [Hall'|Hnot'];
        cbn [mbind result_bind default]; try reflexivity.
      * exfalso. apply Hnot'. constructor; [rewrite Hs; eauto|assumption].
      * exfalso. apply Hnot. inversion Hall'; assumption.
    + clear IH. destruct (decide (Forall _ (s :: subs))) as [Hall|_]; [|reflexivity].
      exfalso. inversion Hall as [|? ? [v Hv] _]; subst. congruence.
Qed.

Lemma metadata_column_lookup (field : string) (subs : list (gmap string string))
    (i : nat) (s : gmap string string) (v : string) :
  subs !! i = Some s -> s !! field = Some v ->
  metadata_column field subs !! i = Some (CStr v).
Proof.
  intros Hi Hv. unfold metadata_column.
  rewrite list_lookup_fmap, Hi. simpl. rewrite Hv. reflexivity.
Qed.

Lemma add_metadata_column_spec (subs : list (gmap string string))
    (df : DataFrame) (field : string) :
  nrows df = length subs ->
  add_metadata_column subs df field =
  Ok (if decide (Forall (fun s : gmap string string => is_Some (s !! field)) subs)
      then {| nrows := nrows df;
              columns := <[field := metadata_column field subs]> (columns df) |}
      else df).
Proof.
  intros Hn. unfold add_metadata_column. rewrite for_each_getitem.
  destruct (decide _) as [Hall|Hnot]; simpl; [|reflexivity].
  unfold setitem_list. rewrite !length_map, Hn, Nat.eqb_refl. simpl.
  unfold metadata_column. rewrite map_map. reflexivity.
Qed.

(** The loop over any list of fields: a field gets its column exactly when
    every record has it; all other columns are as before. *)
Lemma add_metadata_columns_spec (subs : list (gmap string string))
    (fields : list string) (df0 : DataFrame) :
  nrows df0 = length subs ->
  exists df,
    foldl (fun df field => df ← df; add_metadata_column subs df field)
          (Ok df0) fields = Ok df /\
    nrows df = length subs /\
    forall f,
      columns df !! f =
      if decide (f ∈ fields /\
                 Forall (fun s : gmap string string => is_Some (s !! f)) subs)
      then Some (metadata_column f subs)
      else columns df0 !! f.
Proof.
  revert df0. induction fields as [|field fields IH]; intros df0 Hn;
    cbn [foldl mbind result_bind].
  - exists df0. split; [reflexivity|]. split; [assumption|]. intros f.
    rewrite decide_False; [reflexivity|]. intros [H _]. inversion H.
  - rewrite add_metadata_column_spec by assumption.
    set (df1 := if decide _ then _ else df0).
    assert (Hn1 : nrows df1 = length subs).
    { subst df1. destruct (decide _); assumption. }
    destruct (IH df1 Hn1) as (df & Hfold & Hrows & Hcols).
    exists df. split; [assumption|]. split; [assumption|]. intros f.
    rewrite Hcols. clear Hcols Hfold.
    destruct (decide (f ∈ fields /\ _)) as [[Hin Hall]|Hnot].
    + rewrite decide_True; [reflexivity|]. split; [|assumption].
      apply elem_of_cons. auto.
    + subst df1. destruct (decide (Forall _ subs)) as [Hall|Hnall]; simpl.
      * destruct (decide (field = f)) as [->|Hne].
        -- rewrite lookup_insert_eq. rewrite decide_True; [reflexivity|].
           split; [apply list_elem_of_here|assumption].
        -- rewrite lookup_insert_ne by assumption.
           rewrite decide_False; [reflexivity|].
           intros [Hin Hall']. apply elem_of_cons in Hin as [->|Hin]; [congruence|].
           apply Hnot. auto.
      * rewrite decide_False; [reflexivity|].
        intros [Hin Hall']. apply elem_of_cons in Hin as [->|Hin]; [contradiction|].
        apply Hnot. auto.
Qed.

Lemma iter_significant_signal_assembles (env : Env) (fs : gmap string file)
    (template : string) (subs : list (gmap string string))
    (mask_path save_as : string) (iter_data : list (scalar * scalar)) :
  Parallel (n_jobs env)
    (map (fun s => significant_signal env fs template s mask_path) subs)
  = Ok iter_data ->
  exists df,
    assembled subs iter_data df /\
    iter_significant_signal env fs template subs mask_path save_as =
    match save env fs df save_as with
    | (Some e, fs') => (Raise e, fs')
    | (None, fs') => (Ok df, fs')
    end.
Proof.
  intros Hpar. unfold iter_significant_signal. rewrite Hpar.
  assert (Hlen : length iter_data = length subs).
  { unfold Parallel in Hpar. destruct (n_jobs env =? 0)%Z; [discriminate|].
    apply for_each_length in Hpar. rewrite Hpar, length_map. reflexivity. }
  set (df0 := from_items _).
  assert (Hn0 : nrows df0 = length subs).
  { subst df0. simpl. rewrite length_map. assumption. }
  destruct (add_metadata_columns_spec subs metadata_fields df0 Hn0)
    as (df & Hfold & Hrows & Hcols).
  rewrite Hfold. exists df. split; [|reflexivity].
  split; [assumption|]. intros f. rewrite Hcols.
  destruct (decide (f ∈ metadata_fields)) as [Hin|Hnin].
  - destruct (decide (Forall _ subs)) as [Hall|Hnall].
    + rewrite decide_True; [reflexivity|]. auto.
    + rewrite decide_False by (intros [_ H]; contradiction).
      subst df0. simpl.
      unfold metadata_fields in Hin.
      repeat (apply elem_of_cons in Hin as [->|Hin]; [reflexivity|]).
      inversion Hin.
  - rewrite decide_False by (intros [H _]; contradiction).
    subst df0. simpl.
    destruct (decide (f = "Mean")) as [->|Hmean]; [reflexivity|].
    rewrite lookup_insert_ne by congruence.
    destruct (decide (f = "Median")) as [->|Hmedian]; [reflexivity|].
    rewrite lookup_insert_ne by congruence. reflexivity.
Qed.

Lemma save_spec (env : Env) (fs : gmap string file) (df : DataFrame)
    (save_as : string) :
  save env fs df save_as =
  if decide (save_as = "") then (None, fs)
  else if endswith (lower (abspath_expanduser env save_as)) ".csv"
       then (None, <[abspath_expanduser env save_as := Csv df]> fs)
       else (Some (ValueError "Please specify an output path ending in any one of .csv."),
             fs).
Proof.
  unfold save, to_csv. destruct save_as as [|c s].
  - rewrite decide_True by reflexivity. reflexivity.
  - rewrite decide_False by discriminate. reflexivity.
Qed.

Lemma n_jobs_zero (env : Env) : n_jobs env = 0%Z <-> cpu_count env = 2%Z.
Proof. unfold n_jobs. lia. Qed.

(** Lines 43-46: a missing file is answered by the NaN pair, whatever the
    mask path. *)
Lemma significant_signal_missing (env : Env) (fs : gmap string file)
    (template : string) (s : gmap string string) (mask_path p : string) :
  resolve env template s = Ok p -> fs !! p = None ->
  significant_signal env fs template s mask_path = Ok (Num nan, Num nan).
Proof.
  intros Hres Hp. unfold significant_signal. rewrite Hres. simpl.
  unfold nib_load. rewrite Hp. reflexivity.
Qed.

(** What a returned table of mode (a) is made of. *)
Lemma iter_significant_signal_returns (env : Env) (fs fs' : gmap string file)
    (template : string) (subs : list (gmap string string))
    (mask_path save_as : string) (df : DataFrame) :
  iter_significant_signal env fs template subs mask_path save_as = (Ok df, fs') ->
  exists iter_data,
    for_each (fun s => significant_signal env fs template s mask_path) subs
    = Ok iter_data /\
    assembled subs iter_data df /\
    save env fs df save_as = (None, fs').
Proof.
  intros Hiter.
  destruct (Parallel (n_jobs env)
              (map (fun s => significant_signal env fs template s mask_path) subs))
    as [iter_data|e] eqn:Hpar.
  - destruct (iter_significant_signal_assembles env fs template subs mask_path
                save_as iter_data Hpar) as (df0 & Hasm & Heq).
    rewrite Heq in Hiter.
    destruct (save env fs df0 save_as) as [[e|] fs0] eqn:Hsave; [discriminate|].
    injection Hiter as <- <-.
    exists iter_data. split; [|split; assumption].
    destruct (Z.eq_dec (n_jobs env) 0%Z) as [Hz|Hnz].
    + rewrite Hz in Hpar. discriminate.
    + rewrite Parallel_for_each in Hpar by assumption. assumption.
  - unfold iter_significant_signal in Hiter. rewrite Hpar in Hiter. discriminate.
Qed.

Lemma assembled_column_length (subs : list (gmap string string))
    (iter_data : list (scalar * scalar)) (df : DataFrame) (f : string)
    (col : list cell) :
  length iter_data = length subs ->
  assembled subs iter_data df ->
  columns df !! f = Some col -> length col = length subs.
Proof.
  intros Hlen [_ Hcols] Hf. rewrite Hcols in Hf.
  destruct (decide (f ∈ metadata_fields)).
  - destruct (decide (Forall _ subs)); [|discriminate].
    injection Hf as <-. unfold metadata_column. apply length_map.
  - destruct (decide (f = "Mean")).
    + injection Hf as <-. rewrite length_map. assumption.
    + destruct (decide (f = "Median")); [|discriminate].
      injection Hf as <-. rewrite length_map. assumption.
Qed.

Lemma assembled_metadata_cell (subs : list (gmap string string))
    (iter_data : list (scalar * scalar)) (df : DataFrame) (f : string)
    (col : list cell) (i : nat) (s : gmap string string) :
  assembled subs iter_data df ->
  f ∈ metadata_fields -> columns df !! f = Some col -> subs !! i = Some s ->
  exists v, s !! f = Some v /\ col !! i = Some (CStr v).
Proof.
  intros [_ Hcols] Hin Hf Hi. rewrite Hcols in Hf.
  rewrite decide_True in Hf by assumption.
  destruct (decide (Forall _ subs)) as [Hall|]; [|discriminate].
  injection Hf as <-.
  rewrite Forall_lookup in Hall. destruct (Hall i s Hi) as [v Hv].
  exists v. split; [assumption|]. eapply metadata_column_lookup; eassumption.
Qed.

Lemma assembled_statistics (subs : list (gmap string string))
    (iter_data : list (scalar * scalar)) (df : DataFrame) :
  assembled subs iter_data df ->
  columns df !! "Mean" = Some (map (fun i => CNum (fst i)) iter_data) /\
  columns df !! "Median" = Some (map (fun i => CNum (snd i)) iter_data).
Proof.
  intros [_ Hcols]. split; rewrite Hcols.
  - rewrite decide_False; [reflexivity|].
    unfold metadata_fields. intros H.
    repeat (apply elem_of_cons in H as [H|H]; [discriminate|]). inversion H.
  - rewrite decide_False; [reflexivity|].
    unfold metadata_fields. intros H.
    repeat (apply elem_of_cons in H as [H|H]; [discriminate|]). inversion H.
Qed.

Example significant_signal_masked :
  significant_signal env0 fs0 "/data/sub-{subject}.nii" sub_a "/roi.nii"
  = Ok (Num 0x1.4df14ecacc428p+0, Num 0x1.34413509f79fep+0).
Proof. vm_compute. reflexivity. Qed.

Example significant_signal_missing_file :
  significant_signal env0 fs0 "/data/sub-{subject}.nii" sub_b "/roi.nii"
  = Ok (Num nan, Num nan).
Proof. vm_compute. reflexivity. Qed.

(** What it means for a table of mode (a) to follow the records: every
    column has one entry per record, and row [i] holds the statistics of
    record [i], the NaN pair when its file is missing, and its metadata in
    the metadata columns that are present. *)
Lemma returned_table_follows_records (env : Env) (fs fs' : gmap string file)
    (template : string) (subs : list (gmap string string))
    (mask_path save_as : string) (df : DataFrame) :
  iter_significant_signal env fs template subs mask_path save_as = (Ok df, fs') ->
  nrows df = length subs /\
  (forall f col, columns df !! f = Some col -> length col = length subs) /\
  exists means medians,
    columns df !! "Mean" = Some means /\
    columns df !! "Median" = Some medians /\
    forall i s, subs !! i = Some s ->
      (exists m md,
         significant_signal env fs template s mask_path = Ok (m, md) /\
         means !! i = Some (CNum m) /\ medians !! i = Some (CNum md)) /\
      (forall p, resolve env template s = Ok p -> fs !! p = None ->
         means !! i = Some (CNum (Num nan)) /\
         medians !! i = Some (CNum (Num nan))) /\
      (forall f col, f ∈ metadata_fields -> columns df !! f = Some col ->
         exists v, s !! f = Some v /\ col !! i = Some (CStr v)).
Proof.
  intros Hiter.
  destruct (iter_significant_signal_returns _ _ _ _ _ _ _ _ Hiter)
    as (iter_data & Hfor & Hasm & _).
  assert (Hlen : length iter_data = length subs) by (eapply for_each_length, Hfor).
  destruct (assembled_statistics _ _ _ Hasm) as [Hmean Hmedian].
  split; [apply Hasm|].
  split; [intros f col; eapply assembled_column_length; eassumption|].
  exists (map (fun i => CNum (fst i)) iter_data),
    (map (fun i => CNum (snd i)) iter_data).
  split; [assumption|]. split; [assumption|].
  intros i s Hi.
  destruct (for_each_lookup _ _ _ _ _ Hfor Hi) as ([m md] & Hunit & Hrow).
  assert (Hm : map (fun i => CNum (fst i)) iter_data !! i = Some (CNum m))
    by (rewrite list_lookup_fmap, Hrow; reflexivity).
  assert (Hmd : map (fun i => CNum (snd i)) iter_data !! i = Some (CNum md))
    by (rewrite list_lookup_fmap, Hrow; reflexivity).
  split; [exists m, md; auto|]. split.
  - intros p Hres Hp.
    pose proof (significant_signal_missing env fs template s mask_path p Hres Hp)
      as Hnan.
    rewrite Hnan in Hunit. injection Hunit as <- <-. auto.
  - intros f col Hin Hf. eapply assembled_metadata_cell; eassumption.
Qed.

(** The batch of mode (a) returns a table when joblib gets a worker, every
    record either points to a missing file or is computed, and the save path
    is empty or accepted. *)
Lemma iter_significant_signal_total (env : Env) (fs : gmap string file)
    (template : string) (subs : list (gmap string string))
    (mask_path save_as : string) :
  cpu_count env <> 2%Z ->
  Forall (fun s =>
            (exists p, resolve env template s = Ok p /\ fs !! p = None) \/
            (exists r, significant_signal env fs template s mask_path = Ok r))
         subs ->
  save_as = "" \/ endswith (lower (abspath_expanduser env save_as)) ".csv" = true ->
  exists df fs',
    iter_significant_signal env fs template subs mask_path save_as = (Ok df, fs').
Proof.
  intros Hcpu Hunits Hsave.
  assert (Htotal : Forall (fun s => exists r,
            significant_signal env fs template s mask_path = Ok r) subs).
  { eapply Forall_impl; [exact Hunits|]. intros s [(p & Hres & Hp)|Hr]; [|exact Hr].
    eexists. eapply significant_signal_missing; eassumption. }
  destruct (for_each_total _ _ Htotal) as [iter_data Hfor].
  assert (Hnz : n_jobs env <> 0%Z) by (rewrite n_jobs_zero; assumption).
  assert (Hpar : Parallel (n_jobs env)
            (map (fun s => significant_signal env fs template s mask_path) subs)
          = Ok iter_data) by (rewrite Parallel_for_each; assumption).
  destruct (iter_significant_signal_assembles env fs template subs mask_path
              save_as iter_data Hpar) as (df & Hasm & Heq).
  assert (Hsaved : exists fs', save env fs df save_as = (None, fs')).
  { rewrite save_spec. destruct (decide (save_as = "")); [eauto|].
    destruct Hsave as [Hs | Hs]; [contradiction|rewrite Hs; eauto]. }
  destruct Hsaved as [fs' Hfs'].
  exists df, fs'. rewrite Heq, Hfs'. reflexivity.
Qed.

(** C1: in mode (a) a record whose resolved path does not exist gets exactly
    the pair (NaN, NaN), whatever the mask; every table that
    [iter_significant_signal] returns has exactly one row per record, row
    [i] holding the statistics of record [i] (NaN, NaN for a missing file)
    and its metadata; and the call does return a table when every record
    either points to a missing file or is computed, joblib gets a worker
    (the machine does not have exactly two processors) and the save path is
    empty or accepted. *)
Theorem missing_file_gives_nan_row (env : Env) (fs : gmap string file)
    (template : string) (subs : list (gmap string string))
    (mask_path save_as : string) :
  (forall s p, resolve env template s = Ok p -> fs !! p = None ->
     significant_signal env fs template s mask_path = Ok (Num nan, Num nan)) /\
  (forall df fs',
     iter_significant_signal env fs template subs mask_path save_as = (Ok df, fs') ->
     nrows df = length subs /\
     (forall f col, columns df !! f = Some col -> length col = length subs) /\
     exists means medians,
       columns df !! "Mean" = Some means /\
       columns df !! "Median" = Some medians /\
       forall i s, subs !! i = Some s ->
         (exists m md,
            significant_signal env fs template s mask_path = Ok (m, md) /\
            means !! i = Some (CNum m) /\ medians !! i = Some (CNum md)) /\
         (forall p, resolve env template s = Ok p -> fs !! p = None ->
            means !! i = Some (CNum (Num nan)) /\
            medians !! i = Some (CNum (Num nan))) /\
         (forall f col, f ∈ metadata_fields -> columns df !! f = Some col ->
            exists v, s !! f = Some v /\ col !! i = Some (CStr v))) /\
  (cpu_count env <> 2%Z ->
   Forall (fun s =>
             (exists p, resolve env template s = Ok p /\ fs !! p = None) \/
             (exists r, significant_signal env fs template s mask_path = Ok r))
          subs ->
   save_as = "" \/ endswith (lower (abspath_expanduser env save_as)) ".csv" = true ->
   exists df fs',
     iter_significant_signal env fs template subs mask_path save_as = (Ok df, fs')).
Proof.
  split; [|split].
  - intros s p. apply significant_signal_missing.
  - intros df fs'. apply returned_table_follows_records.
  - apply iter_significant_signal_total.
Qed.

Lemma missing_file_gives_nan_row_witness :
  exists df fs' means,
    iter_significant_signal env0 fs0 "/data/sub-{subject}.nii" [sub_a; sub_b]
      "/roi.nii" "/out/snr.csv" = (Ok df, fs') /\
    nrows df = 2 /\
    columns df !! "Mean" = Some means /\
    means !! 1 = Some (CNum (Num nan)).
Proof.
  pose proof (missing_file_gives_nan_row env0 fs0 "/data/sub-{subject}.nii"
                [sub_a; sub_b] "/roi.nii" "/out/snr.csv") as (_ & Hrows & Htotal).
  destruct Htotal as (df & fs' & Hiter).
  - vm_compute. discriminate.
  - constructor; [|constructor; [|constructor]].
    + right. eexists. vm_compute. reflexivity.
    + left. exists "/data/sub-b.nii". split; vm_compute; reflexivity.
  - right. vm_compute. reflexivity.
  - destruct (Hrows df fs' Hiter) as (Hn & _ & means & medians & Hmean & _ & Hrow).
    exists df, fs', means. split; [exact Hiter|]. split; [exact Hn|].
    split; [exact Hmean|].
    destruct (Hrow 1 sub_b eq_refl) as (_ & Hb & _).
    destruct (Hb "/data/sub-b.nii") as [Hmb _]; [vm_compute; reflexivity..|].
    exact Hmb.
Defined.

(** C2, as stated, fails in mode (a): [subject] is a key of the first record
    only, and the returned table has no [subject] column at all. *)
Lemma column_dropped_when_one_record_lacks_key :
  exists df fs',
    iter_significant_signal env0 fs0 "/data/ses-{session}.nii"
      [sub_a; {[ "session" := "ofM" ]}] "" "" = (Ok df, fs') /\
    ~ column_if_any_record [sub_a; {[ "session" := "ofM" ]}] df.
Proof.
  eexists. eexists. split.
  - vm_compute. reflexivity.
  - intros H.
    destruct (H "subject") as [col Hcol].
    + apply list_elem_of_here.
    + exists sub_a. split; [apply list_elem_of_here|].
      vm_compute. eauto.
    + vm_compute in Hcol. discriminate.
Qed.

(** C2 (amended): in the table of mode (a), a metadata column (subject,
    session, task, acquisition) is present exactly when every record has the
    key, and it then holds the value of record [i] in row [i]; a key that
    one record lacks leaves the table without that column. *)
Theorem metadata_column_iff_every_record (env : Env) (fs fs' : gmap string file)
    (template : string) (subs : list (gmap string string))
    (mask_path save_as : string) (df : DataFrame) :
  iter_significant_signal env fs template subs mask_path save_as = (Ok df, fs') ->
  forall f, f ∈ metadata_fields ->
    (is_Some (columns df !! f) <->
     Forall (fun s : gmap string string => is_Some (s !! f)) subs) /\
    (forall col, columns df !! f = Some col ->
       length col = length subs /\
       forall i s, subs !! i = Some s ->
         exists v, s !! f = Some v /\ col !! i = Some (CStr v)).
Proof.
  intros Hiter f Hin.
  destruct (iter_significant_signal_returns _ _ _ _ _ _ _ _ Hiter)
    as (iter_data & Hfor & Hasm & _).
  split.
  - destruct Hasm as [_ Hcols]. rewrite Hcols, decide_True by assumption.
    destruct (decide (Forall _ subs)) as [Hall|Hnot].
    + split; [intros _; assumption|intros _; eauto].
    + split; [intros [col Hcol]; discriminate|intros Hall; contradiction].
  - intros col Hcol. split.
    + eapply assembled_column_length; [|eassumption..].
      eapply for_each_length, Hfor.
    + intros i s Hi. eapply assembled_metadata_cell; eassumption.
Qed.

Lemma metadata_column_iff_every_record_witness :
  is_Some (columns
             (match iter_significant_signal env0 fs0 "/data/sub-{subject}.nii"
                      [sub_a; sub_b] "/roi.nii" "" with
              | (Ok df, _) => df
              | _ => from_items []
              end) !! "subject") <->
  Forall (fun s : gmap string string => is_Some (s !! "subject")) [sub_a; sub_b].
Proof.
  destruct (iter_significant_signal env0 fs0 "/data/sub-{subject}.nii"
              [sub_a; sub_b] "/roi.nii" "") as [[df|e] fs'] eqn:Hiter.
  - apply (metadata_column_iff_every_record env0 fs0 fs' _ _ _ _ df Hiter "subject").
    apply list_elem_of_here.
  - vm_compute in Hiter. discriminate.
Defined.

(** ** Strings: suffixes and lower case *)

Lemma string_app_cons (c : ascii) (a b : string) :
  String c a ++ b = String c (a ++ b).
Proof. reflexivity. Qed.

Lemma string_length_app (a b : string) :
  String.length (a ++ b) = String.length a + String.length b.
Proof. induction a as [|c a IH]; simpl; [reflexivity|]. rewrite IH. reflexivity. Qed.

Lemma substring_all (s : string) : substring 0 (String.length s) s = s.
Proof. induction s as [|c s IH]; simpl; [reflexivity|]. rewrite IH. reflexivity. Qed.

Lemma substring_app_r (a b : string) (n : nat) :
  substring (String.length a) n (a ++ b) = substring 0 n b.
Proof. induction a as [|c a IH]; simpl; [reflexivity|]. exact IH. Qed.

Lemma substring_split (s : string) (n : nat) :
  n <= String.length s ->
  s = substring 0 n s ++ substring n (String.length s - n) s.
Proof.
  revert n. induction s as [|c s IH]; intros n Hn; simpl in *.
  - destruct n; reflexivity.
  - destruct n as [|n]; simpl.
    + rewrite substring_all. reflexivity.
    + rewrite string_app_cons. f_equal. apply IH. lia.
Qed.

Lemma endswith_iff (s suffix : string) :
  endswith s suffix = true <-> exists stem, s = stem ++ suffix.
Proof.
  unfold endswith. rewrite andb_true_iff, Nat.leb_le, String.eqb_eq. split.
  - intros [Hle Hsub].
    exists (substring 0 (String.length s - String.length suffix) s).
    rewrite (substring_split s (String.length s - String.length suffix)) at 1 by lia.
    f_equal.
    replace (String.length s - (String.length s - String.length suffix))
      with (String.length suffix) by lia.
    exact Hsub.
  - intros [stem ->]. rewrite string_length_app. split; [lia|].
    replace (String.length stem + String.length suffix - String.length suffix)
      with (String.length stem) by lia.
    rewrite substring_app_r. apply substring_all.
Qed.

Lemma lower_length (s : string) : String.length (lower s) = String.length s.
Proof. induction s as [|c s IH]; simpl; [reflexivity|]. rewrite IH. reflexivity. Qed.

Lemma lower_substring (s : string) (n m : nat) :
  lower (substring n m s) = substring n m (lower s).
Proof.
  revert n m. induction s as [|c s IH]; intros n m; simpl.
  - destruct n, m; reflexivity.
  - destruct n as [|n]; [destruct m as [|m]|]; simpl; [reflexivity| |apply IH].
    rewrite IH. reflexivity.
Qed.

(** The lower-cased path ends in [.csv] exactly when the path ends in an
    extension that is [.csv] up to case. *)
Lemma endswith_lower_iff (p suffix : string) :
  endswith (lower p) suffix = true <->
  exists stem ext, p = stem ++ ext /\ lower ext = suffix.
Proof.
  split.
  - unfold endswith. rewrite andb_true_iff, Nat.leb_le, String.eqb_eq, lower_length.
    intros [Hle Hsub].
    exists (substring 0 (String.length p - String.length suffix) p),
      (substring (String.length p - String.length suffix) (String.length suffix) p).
    split.
    + rewrite (substring_split p (String.length p - String.length suffix)) at 1 by lia.
      f_equal.
      replace (String.length p - (String.length p - String.length suffix))
        with (String.length suffix) by lia.
      reflexivity.
    + rewrite lower_substring. exact Hsub.
  - intros (stem & ext & -> & <-). apply endswith_iff. exists (lower stem).
    clear. induction stem as [|c stem IH]; [reflexivity|].
    rewrite string_app_cons. simpl. rewrite IH. apply string_app_cons.
Qed.

Example endswith_upper_case :
  endswith (lower "/out/snr.CSV") ".csv" = true /\
  endswith "/out/snr.CSV" ".csv" = false /\
  endswith (lower "/out/snr.txt") ".csv" = false.
Proof. repeat split; reflexivity. Qed.

(** ** Saving the table *)

(** Both batch functions end in the same block: the call with a save path is
    the call without one, followed by [save]. *)
Lemma iter_significant_signal_then_save (env : Env) (fs : gmap string file)
    (template : string) (subs : list (gmap string string))
    (mask_path save_as : string) :
  iter_significant_signal env fs template subs mask_path save_as =
  match iter_significant_signal env fs template subs mask_path "" with
  | (Ok df, _) =>
      match save env fs df save_as with
      | (Some e, fs') => (Raise e, fs')
      | (None, fs') => (Ok df, fs')
      end
  | (Raise e, _) => (Raise e, fs)
  end.
Proof.
  unfold iter_significant_signal.
  destruct (Parallel _ _) as [iter_data|e]; [|reflexivity].
  destruct (foldl _ _ _) as [df|e]; reflexivity.
Qed.

Lemma iter_base_metrics_then_save (env : Env) (fs : gmap string file)
    (template : string) (subs : list (gmap string string)) (save_as : string) :
  iter_base_metrics env fs template subs save_as =
  match iter_base_metrics env fs template subs "" with
  | (Ok df, _) =>
      match save env fs df save_as with
      | (Some e, fs') => (Raise e, fs')
      | (None, fs') => (Ok df, fs')
      end
  | (Raise e, _) => (Raise e, fs)
  end.
Proof.
  unfold iter_base_metrics.
  destruct (Parallel _ _) as [frames|e]; [|reflexivity].
  destruct (pd_concat frames) as [df|e]; reflexivity.
Qed.

(** C7, as stated, fails on an extension in upper case: the path does not
    end in [.csv], and yet the table is written there and returned. *)
Lemma upper_case_extension_is_saved :
  exists df fs',
    endswith "/out/snr.CSV" ".csv" = false /\
    iter_significant_signal env0 fs0 "/data/sub-{subject}.nii" [sub_a; sub_b]
      "/roi.nii" "/out/snr.CSV" = (Ok df, fs') /\
    fs0 !! "/out/snr.CSV" = None /\
    fs' !! "/out/snr.CSV" = Some (Csv df).
Proof.
  eexists. eexists. split; [reflexivity|]. split; [vm_compute; reflexivity|].
  split; vm_compute; reflexivity.
Qed.

(** C7 (amended): for a table that either batch function assembles and a
    save path that is not empty, the table is written to the absolute path
    and returned when that path, in lower case, ends in [.csv] (so also for
    [.CSV]); otherwise the call raises [ValueError] and the file system is
    left as it was. *)
Theorem save_csv_or_refuse (env : Env) (fs : gmap string file)
    (template : string) (subs : list (gmap string string))
    (mask_path save_as : string) (df : DataFrame) :
  save_as <> "" ->
  (iter_significant_signal env fs template subs mask_path "" = (Ok df, fs) ->
   iter_significant_signal env fs template subs mask_path save_as =
   if endswith (lower (abspath_expanduser env save_as)) ".csv"
   then (Ok df, <[abspath_expanduser env save_as := Csv df]> fs)
   else (Raise (ValueError "Please specify an output path ending in any one of .csv."),
         fs)) /\
  (iter_base_metrics env fs template subs "" = (Ok df, fs) ->
   iter_base_metrics env fs template subs save_as =
   if endswith (lower (abspath_expanduser env save_as)) ".csv"
   then (Ok df, <[abspath_expanduser env save_as := Csv df]> fs)
   else (Raise (ValueError "Please specify an output path ending in any one of .csv."),
         fs)).
Proof.
  intros Hne. split; intros Hdf.
  - rewrite iter_significant_signal_then_save, Hdf, save_spec.
    rewrite decide_False by assumption.
    destruct (endswith _ _); reflexivity.
  - rewrite iter_base_metrics_then_save, Hdf, save_spec.
    rewrite decide_False by assumption.
    destruct (endswith _ _); reflexivity.
Qed.

Lemma save_csv_or_refuse_witness :
  exists df,
    iter_significant_signal env0 fs0 "/data/sub-{subject}.nii" [sub_a; sub_b]
      "/roi.nii" "/out/snr.txt"
    = (Raise (ValueError "Please specify an output path ending in any one of .csv."),
       fs0) /\
    iter_significant_signal env0 fs0 "/data/sub-{subject}.nii" [sub_a; sub_b]
      "/roi.nii" "/out/snr.csv"
    = (Ok df, <["/out/snr.csv" := Csv df]> fs0).
Proof.
  destruct (iter_significant_signal env0 fs0 "/data/sub-{subject}.nii"
              [sub_a; sub_b] "/roi.nii" "") as [[df|e] fs'] eqn:Hiter.
  - assert (Hfs : fs' = fs0).
    { rewrite iter_significant_signal_then_save in Hiter.
      destruct (iter_significant_signal _ _ _ _ _ "") as [[df'|e'] fs''];
        simpl in Hiter; congruence. }
    subst fs'. exists df. split.
    + apply (proj1 (save_csv_or_refuse env0 fs0 "/data/sub-{subject}.nii"
                      [sub_a; sub_b] "/roi.nii" "/out/snr.txt" df ltac:(discriminate))
               Hiter).
    + apply (proj1 (save_csv_or_refuse env0 fs0 "/data/sub-{subject}.nii"
                      [sub_a; sub_b] "/roi.nii" "/out/snr.csv" df ltac:(discriminate))
               Hiter).
  - vm_compute in Hiter. discriminate.
Defined.

(** C10: the extension is compared in lower case. For a save path that is
    not empty, the block ends normally exactly when the absolute path, in
    lower case, ends in [.csv], that is when the path ends in an extension
    equal to [.csv] up to case, and the table is then written there;
    [ValueError] is raised exactly when it does not, and nothing is
    written. *)
Theorem save_extension_case_insensitive (env : Env) (fs : gmap string file)
    (df : DataFrame) (save_as : string) :
  save_as <> "" ->
  (fst (save env fs df save_as) = None <->
   endswith (lower (abspath_expanduser env save_as)) ".csv" = true) /\
  (fst (save env fs df save_as) = None <->
   exists stem ext, abspath_expanduser env save_as = stem ++ ext /\ lower ext = ".csv") /\
  ((exists msg, save env fs df save_as = (Some (ValueError msg), fs)) <->
   endswith (lower (abspath_expanduser env save_as)) ".csv" = false) /\
  (fst (save env fs df save_as) = None ->
   snd (save env fs df save_as) = <[abspath_expanduser env save_as := Csv df]> fs).
Proof.
  intros Hne. rewrite <- endswith_lower_iff, !save_spec.
  rewrite decide_False by assumption.
  destruct (endswith _ _); simpl.
  - repeat split; try reflexivity; try discriminate.
    intros [msg H]. discriminate.
  - repeat split; try discriminate; eauto.
Qed.

Lemma save_extension_case_insensitive_witness :
  fst (save env0 fs0 (from_items []) "/out/snr.Csv") = None /\
  snd (save env0 fs0 (from_items []) "/out/snr.Csv")
  = <["/out/snr.Csv" := Csv (from_items [])]> fs0.
Proof.
  pose proof (save_extension_case_insensitive env0 fs0 (from_items [])
                "/out/snr.Csv" ltac:(discriminate)) as (H1 & _ & _ & H4).
  pose proof (proj2 H1 eq_refl) as Hnone. split; [exact Hnone|exact (H4 Hnone)].
Defined.

(** ** The number of workers *)

(** C8, as stated, fails on a machine with two processors: [n_jobs] is 0,
    not 1, joblib refuses it, and the batch raises. *)
Lemma no_floor_with_two_cpus :
  n_jobs env_two_cpus = 0%Z /\
  ~ (1 <= n_jobs env_two_cpus)%Z /\
  (exists msg, effective_n_jobs (cpu_count env_two_cpus) (n_jobs env_two_cpus)
               = Raise (ValueError msg)) /\
  (exists msg, iter_significant_signal env_two_cpus fs0 "/data/sub-{subject}.nii"
                 [sub_a; sub_b] "/roi.nii" "" = (Raise (ValueError msg), fs0)).
Proof.
  split; [reflexivity|]. split; [vm_compute; intros H; apply H; reflexivity|].
  split; eexists; reflexivity.
Qed.

(** C8 (amended): the worker count passed to joblib is the processor count
    minus 2, with no floor. From three processors on that many workers run;
    with two processors the count is 0, which joblib refuses, so that both
    batch functions raise [ValueError] and write nothing; with one processor
    it is -1, which joblib reads as one worker. *)
Theorem default_worker_count (env : Env) :
  n_jobs env = (cpu_count env - 2)%Z /\
  effective_n_jobs (cpu_count env) (n_jobs env) =
    (if (cpu_count env =? 2)%Z
     then Raise (ValueError "n_jobs == 0 in Parallel has no meaning")
     else if (cpu_count env <? 2)%Z then Ok (Z.max (cpu_count env - 1) 1)
     else Ok (cpu_count env - 2)%Z) /\
  (if (cpu_count env <=? 2)%Z then True else (1 <= n_jobs env)%Z) /\
  (if (cpu_count env =? 2)%Z
   then forall fs template subs mask_path save_as,
       iter_significant_signal env fs template subs mask_path save_as
       = (Raise (ValueError "n_jobs == 0 in Parallel has no meaning"), fs) /\
       iter_base_metrics env fs template subs save_as
       = (Raise (ValueError "n_jobs == 0 in Parallel has no meaning"), fs)
   else True).
Proof.
  split; [reflexivity|]. unfold effective_n_jobs, n_jobs. split; [|split].
  - destruct (Z.eqb_spec (cpu_count env) 2) as [->|Hne]; [reflexivity|].
    destruct (Z.eqb_spec (cpu_count env - 2) 0) as [|_]; [lia|].
    destruct (Z.ltb_spec (cpu_count env) 2), (Z.ltb_spec (cpu_count env - 2) 0);
      try lia; try reflexivity.
    f_equal. lia.
  - destruct (Z.leb_spec (cpu_count env) 2); [exact I|lia].
  - destruct (Z.eqb_spec (cpu_count env) 2) as [Heq|_]; [|exact I].
    intros fs template subs mask_path save_as.
    unfold iter_significant_signal, iter_base_metrics, n_jobs. rewrite Heq.
    split; reflexivity.
Qed.

(** ** Floating point: NaN *)

Local Open Scope float_scope.

Lemma SFcompare_refl (f : spec_float) :
  f <> S754_nan -> SFcompare f f = Some Eq.
Proof.
  destruct f as [s|s| |s m e]; intros Hf; simpl.
  - reflexivity.
  - destruct s; reflexivity.
  - contradiction.
  - rewrite Z.compare_refl.
    change (Pos.compare_cont Eq m m) with (Pos.compare m m).
    rewrite Pos.compare_refl. destruct s; reflexivity.
Qed.

(** There is one NaN. *)
Lemma is_nan_eq (x : float) : is_nan x = true -> x = nan.
Proof.
  unfold is_nan. rewrite FloatAxioms.eqb_spec. intros H.
  apply Prim2SF_inj. change (Prim2SF nan) with S754_nan.
  destruct (Prim2SF x) as [s|s| |s m e] eqn:Hx; try reflexivity;
    unfold SFeqb in H; rewrite SFcompare_refl in H by discriminate;
    discriminate.
Qed.

Lemma add_nan_r (x : float) : x + nan = nan.
Proof.
  apply Prim2SF_inj. rewrite add_spec. change (Prim2SF nan) with S754_nan.
  destruct (Prim2SF x); reflexivity.
Qed.

Lemma add_nan_l (x : float) : nan + x = nan.
Proof.
  apply Prim2SF_inj. rewrite add_spec. change (Prim2SF nan) with S754_nan.
  reflexivity.
Qed.

Lemma div_nan_l (x : float) : nan / x = nan.
Proof.
  apply Prim2SF_inj. rewrite div_spec. change (Prim2SF nan) with S754_nan.
  reflexivity.
Qed.

Lemma fold_add_nan (l : list float) : fold_left PrimFloat.add l nan = nan.
Proof.
  induction l as [|y l IH]; simpl; [reflexivity|].
  rewrite add_nan_l. exact IH.
Qed.

Lemma fold_add_with_nan (l : list float) (x : float) :
  In nan l -> fold_left PrimFloat.add l x = nan.
Proof.
  revert x. induction l as [|y l IH]; intros x Hin; simpl.
  - destruct Hin.
  - destruct Hin as [->|Hin].
    + rewrite add_nan_r. apply fold_add_nan.
    + apply IH, Hin.
Qed.

(** One NaN element makes the sum, and so the mean, NaN. *)
Lemma np_sum_nan (l : list float) : In nan l -> np_sum l = nan.
Proof.
  destruct l as [|x l]; intros Hin; simpl.
  - destruct Hin.
  - destruct Hin as [->|Hin].
    + apply fold_add_nan.
    + apply fold_add_with_nan, Hin.
Qed.

Lemma np_mean_nan (l : list float) : In nan l -> np_mean l = nan.
Proof. intros Hin. unfold np_mean. rewrite np_sum_nan by assumption. apply div_nan_l. Qed.

Lemma np_min_nan (l : list float) : In nan l -> np_min l = Ok nan.
Proof.
  intros Hin. unfold np_min. destruct l as [|x l]; [destruct Hin|].
  replace (existsb is_nan (x :: l)) with true; [reflexivity|].
  symmetry. apply existsb_exists. exists nan. split; [assumption|reflexivity].
Qed.

Lemma np_min_empty :
  np_min [] = Raise (ValueError
    "zero-size array to reduction operation minimum which has no identity").
Proof. reflexivity. Qed.

Local Close Scope float_scope.

(** ** The statistic of mode (a) *)

Lemma masked_array_fst (data : list float) (mask : list bool)
    (l : list (float * bool)) :
  masked_array data mask = Ok l -> map fst l = data.
Proof.
  unfold masked_array. intros H.
  assert (Hzip : (if (length mask =? length data)%nat
                  then Ok (zip data mask) else Raise MaskError) = Ok l ->
                 map fst l = data).
  { destruct (Nat.eqb_spec (length mask) (length data)) as [Hlen|]; [|discriminate].
    intros [= <-]. apply fst_zip. lia. }
  destruct mask as [|m [|m' mask]]; [exact (Hzip H)| |exact (Hzip H)].
  injection H as <-. rewrite map_map. simpl. apply map_id.
Qed.

Lemma filter_map_fst {A B : Type} (P : A -> bool) (l : list (A * B)) :
  map fst (List.filter (fun e => P (fst e)) l) = List.filter P (map fst l).
Proof.
  induction l as [|[a b] l IH]; simpl; [reflexivity|].
  destruct (P a); simpl; rewrite IH; reflexivity.
Qed.

(** Lines 47-52, with a mask: the entries that are kept are exactly the
    voxels that are not NaN, in order. *)
Lemma apply_mask_removes_nan (env : Env) (fs : gmap string file)
    (data : list float) (mask_path : string) (arr : array) :
  mask_path <> "" ->
  apply_mask env fs data mask_path = Ok arr ->
  exists l,
    arr = Masked l /\
    map fst l = List.filter (fun x => negb (PrimFloat.is_nan x)) data /\
    Forall (fun e : float * bool => PrimFloat.is_nan (fst e) = false) l.
Proof.
  intros Hne. unfold apply_mask. destruct mask_path as [|c rest]; [contradiction|].
  destruct (nib_load fs _) as [mask|e]; simpl; [|discriminate].
  destruct (masked_array data _) as [dm|e] eqn:Hdm; simpl; [|discriminate].
  intros [= <-]. eexists. split; [reflexivity|]. split.
  - rewrite (filter_map_fst (fun x => negb (PrimFloat.is_nan x))).
    rewrite (masked_array_fst _ _ _ Hdm). reflexivity.
  - apply List.Forall_forall. intros e He.
    apply List.filter_In in He as [_ He]. apply negb_true_iff in He. exact He.
Qed.

Lemma apply_mask_none (env : Env) (fs : gmap string file) (data : list float) :
  apply_mask env fs data "" = Ok (Plain data).
Proof. reflexivity. Qed.

(** Lines 53-62 on a plain array with a NaN voxel: the minimum of the
    nonzero voxels is NaN, the voxel stays NaN through the replacement of
    zeros and the logarithm, and the mean is NaN. *)
Lemma signal_statistics_nan (env : Env) (data : list float) :
  log10 env nan = nan ->
  In nan data ->
  exists median, signal_statistics env (Plain data) = Ok (Num nan, median).
Proof.
  intros Hlog Hin. unfold signal_statistics.
  assert (Hnz : In nan (nonzero (Plain data))).
  { simpl. apply List.filter_In. split; [assumption|reflexivity]. }
  rewrite (np_min_nan _ Hnz). simpl.
  eexists. f_equal. f_equal. f_equal.
  apply np_mean_nan. apply List.in_map_iff. exists nan. split.
  - rewrite Hlog. reflexivity.
  - apply List.in_map_iff. exists nan. split; [reflexivity|assumption].
Qed.

Lemma Parallel_failure {A B : Type} (f : A -> result B) (n : Z) (l : list A)
    (x : A) (e : exn) :
  x ∈ l -> f x = Raise e -> exists e', Parallel n (map f l) = Raise e'.
Proof.
  intros Hin Hx. destruct (Z.eq_dec n 0%Z) as [->|Hn].
  - eexists. reflexivity.
  - rewrite Parallel_for_each by assumption. eapply for_each_failure; eassumption.
Qed.

(** An exception of one unit aborts the batch of mode (a), and nothing is
    written. *)
Lemma iter_significant_signal_unit_failure (env : Env) (fs : gmap string file)
    (template : string) (subs : list (gmap string string))
    (mask_path save_as : string) (s : gmap string string) (e : exn) :
  s ∈ subs ->
  significant_signal env fs template s mask_path = Raise e ->
  exists e',
    iter_significant_signal env fs template subs mask_path save_as = (Raise e', fs).
Proof.
  intros Hin Hs.
  destruct (Parallel_failure
              (fun s => significant_signal env fs template s mask_path)
              (n_jobs env) subs s e Hin Hs) as [e' He'].
  exists e'. unfold iter_significant_signal. rewrite He'. reflexivity.
Qed.

Example fully_masked_map_raises :
  significant_signal env0 (<["/none.nii" := Nifti zeros]> fs0)
    "/data/sub-{subject}.nii" sub_a "/none.nii"
  = Raise (ValueError
      "zero-size array to reduction operation minimum which has no identity").
Proof. vm_compute. reflexivity. Qed.

(** C3, as stated, fails on a map that is zero everywhere: no nonzero voxel
    is retained, and the statistic raises instead of returning the NaN
    pair. *)
Lemma all_zero_map_raises :
  fs0 !! "/data/sub-z.nii" = Some (Nifti zeros) /\
  nonzero (Plain (voxels zeros)) = [] /\
  significant_signal env0 fs0 "/data/sub-{subject}.nii" sub_z ""
  = Raise (ValueError
      "zero-size array to reduction operation minimum which has no identity") /\
  significant_signal env0 fs0 "/data/sub-{subject}.nii" sub_z ""
  <> Ok (Num nan, Num nan).
Proof.
  split; [vm_compute; reflexivity|]. split; [vm_compute; reflexivity|].
  assert (H : significant_signal env0 fs0 "/data/sub-{subject}.nii" sub_z ""
              = Raise (ValueError
                  "zero-size array to reduction operation minimum which has no identity"))
    by (vm_compute; reflexivity).
  split; [exact H|]. rewrite H. discriminate.
Qed.

(** C3 (amended): when the map loads and no nonzero voxel is retained (with
    the mask, if one is given), the statistic does not recover: [np.min] of
    the empty selection raises [ValueError], [significant_signal] raises it
    to its caller, and a batch that holds such a record raises and writes
    nothing. *)
Theorem degenerate_input_raises (env : Env) (fs : gmap string file)
    (template : string) (s : gmap string string) (mask_path p : string)
    (img : ndarray) (data : array) :
  resolve env template s = Ok p ->
  fs !! p = Some (Nifti img) ->
  apply_mask env fs (voxels img) mask_path = Ok data ->
  nonzero data = [] ->
  significant_signal env fs template s mask_path
  = Raise (ValueError
      "zero-size array to reduction operation minimum which has no identity") /\
  forall subs save_as, s ∈ subs ->
    exists e,
      iter_significant_signal env fs template subs mask_path save_as = (Raise e, fs).
Proof.
  intros Hres Hp Hmask Hnz.
  assert (Hs : significant_signal env fs template s mask_path
               = Raise (ValueError
                   "zero-size array to reduction operation minimum which has no identity")).
  { unfold significant_signal. rewrite Hres. simpl.
    unfold nib_load. rewrite Hp, Hmask. simpl.
    unfold signal_statistics. rewrite Hnz. reflexivity. }
  split; [exact Hs|].
  intros subs save_as Hin.
  eapply iter_significant_signal_unit_failure; eassumption.
Qed.

Lemma degenerate_input_raises_witness :
  significant_signal env0 fs0 "/data/sub-{subject}.nii" sub_z "/roi.nii"
  = Raise (ValueError
      "zero-size array to reduction operation minimum which has no identity").
Proof.
  refine (proj1 (degenerate_input_raises env0 fs0 "/data/sub-{subject}.nii" sub_z
                   "/roi.nii" "/data/sub-z.nii" zeros
                   (Masked (zip (voxels zeros)
                              (map (fun m => (m <? 0.5)%float) (voxels roi))))
                   _ _ _ _)).
  - vm_compute. reflexivity.
  - vm_compute. reflexivity.
  - vm_compute. reflexivity.
  - vm_compute. reflexivity.
Defined.

(** C9: NaN voxels are taken out of the data exactly when a mask path is
    given. With a mask, the array the statistics work on holds the voxels
    that are not NaN, in order, and no NaN; with none, the data are the
    loaded voxels unchanged, and a NaN among them makes the mean NaN (given
    that [log10] of NaN is NaN). *)
Theorem nan_voxels_removed_iff_mask (env : Env) (fs : gmap string file)
    (template : string) (s : gmap string string) (mask_path p : string)
    (img : ndarray) :
  resolve env template s = Ok p ->
  fs !! p = Some (Nifti img) ->
  (mask_path <> "" ->
   forall arr, apply_mask env fs (voxels img) mask_path = Ok arr ->
     exists l,
       arr = Masked l /\
       map fst l = List.filter (fun x => negb (PrimFloat.is_nan x)) (voxels img) /\
       Forall (fun e : float * bool => PrimFloat.is_nan (fst e) = false) l) /\
  (mask_path = "" ->
   apply_mask env fs (voxels img) mask_path = Ok (Plain (voxels img)) /\
   (log10 env nan = nan ->
    Exists (fun x => PrimFloat.is_nan x = true) (voxels img) ->
    exists median,
      significant_signal env fs template s mask_path = Ok (Num nan, median))).
Proof.
  intros Hres Hp. split.
  - intros Hne arr Harr. eapply apply_mask_removes_nan; eassumption.
  - intros ->. split; [reflexivity|]. intros Hlog Hex.
    assert (Hin : In nan (voxels img)).
    { apply List.Exists_exists in Hex as (x & Hx & Hnan).
      apply is_nan_eq in Hnan. subst x. exact Hx. }
    destruct (signal_statistics_nan env (voxels img) Hlog Hin) as [median Hstat].
    exists median. unfold significant_signal. rewrite Hres. simpl.
    unfold nib_load. rewrite Hp. simpl. exact Hstat.
Qed.

Lemma nan_voxels_removed_iff_mask_witness :
  (exists median,
     significant_signal env0 fs0 "/data/sub-{subject}.nii" sub_n ""
     = Ok (Num nan, median)) /\
  (exists l,
     apply_mask env0 fs0 (voxels pmap_nan) "/roi.nii" = Ok (Masked l) /\
     map fst l = [0; 0x1p-4; 0; 0x1p-2; 0]%float).
Proof.
  pose proof (nan_voxels_removed_iff_mask env0 fs0 "/data/sub-{subject}.nii"
                sub_n "" "/data/sub-n.nii" pmap_nan eq_refl eq_refl) as [_ Hplain].
  pose proof (nan_voxels_removed_iff_mask env0 fs0 "/data/sub-{subject}.nii"
                sub_n "/roi.nii" "/data/sub-n.nii" pmap_nan eq_refl eq_refl)
    as [Hmasked _].
  split.
  - destruct (Hplain eq_refl) as [_ Hmean]. apply Hmean.
    + reflexivity.
    + apply List.Exists_exists. exists nan. split; [|reflexivity].
      simpl. right. right. left. reflexivity.
  - destruct (apply_mask env0 fs0 (voxels pmap_nan) "/roi.nii") as [arr|e] eqn:Harr.
    + destruct (Hmasked ltac:(discriminate) arr eq_refl) as (l & -> & Hfst & _).
      exists l. split; [reflexivity|exact Hfst].
    + vm_compute in Harr. discriminate.
Defined.

Example significant_signal_nan_masked :
  significant_signal env0 fs0 "/data/sub-{subject}.nii" sub_n "/roi.nii"
  = Ok (Num 0x1.ce61cf8ef36fdp-1, Num 0x1.ce61cf8ef36fdp-1).
Proof. vm_compute. reflexivity. Qed.

(** ** The table of mode (b) *)

Lemma sps_mode_nonempty (i : list float) :
  i <> [] -> sps_mode i = ([mode_of i], [snd (fold_left (mode_step i) (np_unique i) (0%float, 0))]).
Proof.
  intros Hi. unfold sps_mode, mode_of. destruct i as [|x i]; [contradiction|].
  destruct (fold_left _ _ _) as [mostfrequent counts]. reflexivity.
Qed.

(** Lines 145-157: one entry per slice is appended to each of the four
    lists, as long as no slice is empty. *)
Lemma metrics_loop_spec (data : list (list float))
    (stds means medians modes : list float) :
  Forall (fun i => i <> []) data ->
  metrics_loop data stds means medians modes =
  Ok ((stds ++ map np_std data)%list, (means ++ map np_mean data)%list,
      (medians ++ map np_median data)%list, (modes ++ map mode_of data)%list).
Proof.
  intros Hdata. revert stds means medians modes.
  induction Hdata as [|i data Hi _ IH]; intros stds means medians modes.
  - simpl. rewrite !app_nil_r. reflexivity.
  - cbn [metrics_loop]. rewrite (sps_mode_nonempty i Hi).
    cbn [getitem0 mbind result_bind]. rewrite IH.
    cbn [map]. rewrite <- !app_assoc. reflexivity.
Qed.

Lemma metrics_loop_empty_slice (pre post : list (list float))
    (stds means medians modes : list float) :
  Forall (fun i => i <> []) pre ->
  metrics_loop (pre ++ [] :: post) stds means medians modes = Raise IndexError.
Proof.
  intros Hpre. revert stds means medians modes.
  induction Hpre as [|i pre Hi _ IH]; intros stds means medians modes.
  - reflexivity.
  - cbn [metrics_loop app]. rewrite (sps_mode_nonempty i Hi).
    cbn [getitem0 mbind result_bind]. apply IH.
Qed.

Lemma add_metadata_value_spec (s : gmap string string) (df : DataFrame)
    (field : string) :
  add_metadata_value s df field =
  Ok (match s !! field with
      | Some value => setitem_scalar df field value
      | None => df
      end).
Proof.
  unfold add_metadata_value, getitem. destruct (s !! field); reflexivity.
Qed.

(** The loop over the metadata fields adds a filled column for every field
    the record has, and leaves the rest of the table as it is. *)
Lemma add_metadata_values_spec (s : gmap string string) (fields : list string)
    (df0 : DataFrame) :
  exists df,
    foldl (fun df field => df ← df; add_metadata_value s df field)
          (Ok df0) fields = Ok df /\
    nrows df = nrows df0 /\
    forall f,
      columns df !! f =
      match s !! f with
      | Some value =>
          if decide (f ∈ fields) then Some (replicate (nrows df0) (CStr value))
          else columns df0 !! f
      | None => columns df0 !! f
      end.
Proof.
  revert df0. induction fields as [|field fields IH]; intros df0;
    cbn [foldl mbind result_bind].
  - exists df0. split; [reflexivity|]. split; [reflexivity|]. intros f.
    destruct (s !! f); [|reflexivity].
    rewrite decide_False; [reflexivity|]. intros H. inversion H.
  - rewrite add_metadata_value_spec.
    destruct (IH (match s !! field with
                  | Some value => setitem_scalar df0 field value
                  | None => df0
                  end)) as (df & Hfold & Hrows & Hcols).
    exists df. split; [exact Hfold|].
    assert (Hn : nrows (match s !! field with
                        | Some value => setitem_scalar df0 field value
                        | None => df0
                        end) = nrows df0) by (destruct (s !! field); reflexivity).
    split; [congruence|]. intros f. rewrite Hcols, Hn. clear Hcols Hfold Hrows IH.
    destruct (s !! f) as [v|] eqn:Hf.
    + destruct (decide (f ∈ fields)) as [Hin|Hnin].
      * rewrite decide_True by (apply elem_of_cons; auto). reflexivity.
      * destruct (decide (field = f)) as [->|Hne].
        -- rewrite Hf. simpl. rewrite lookup_insert_eq.
           rewrite decide_True by apply list_elem_of_here. reflexivity.
        -- rewrite decide_False
             by (intros H; apply elem_of_cons in H as [H|H]; congruence).
           destruct (s !! field); [|reflexivity].
           simpl. rewrite lookup_insert_ne by assumption. reflexivity.
    + destruct (s !! field) as [v|] eqn:Hfield; [|reflexivity].
      simpl. rewrite lookup_insert_ne by congruence. reflexivity.
Qed.

Lemma statistic_not_metadata (f : string) :
  f = "Mean" \/ f = "Median" \/ f = "Mode" \/ f = "Standard Deviation" ->
  f ∉ metadata_fields.
Proof.
  unfold metadata_fields. intros H Hin.
  repeat (apply elem_of_cons in Hin as [Hin|Hin];
          [destruct H as [->|[->|[->| ->]]]; discriminate|]).
  inversion Hin.
Qed.

(** Lines 116-171, when the file loads and no slice is empty. *)
Lemma base_metrics_spec (env : Env) (fs : gmap string file)
    (template : string) (s : gmap string string) (p : string)
    (img : ndarray) (vols : list (list float)) :
  resolve env template s = Ok p ->
  fs !! abspath_expanduser env p = Some (Nifti img) ->
  iter_T img = Ok vols ->
  Forall (fun i => i <> []) vols ->
  exists df,
    base_metrics env fs template s = Ok df /\
    nrows df = length vols /\
    columns df !! "Mean" = Some (float_column (map np_mean vols)) /\
    columns df !! "Median" = Some (float_column (map np_median vols)) /\
    columns df !! "Mode" = Some (float_column (map mode_of vols)) /\
    columns df !! "Standard Deviation" = Some (float_column (map np_std vols)).
Proof.
  intros Hres Hp Hvols Hne. unfold base_metrics.
  rewrite Hres. cbn [mbind result_bind].
  unfold nib_load. rewrite Hp. cbn [mbind result_bind].
  rewrite Hvols. cbn [mbind result_bind].
  rewrite (metrics_loop_spec vols [] [] [] [] Hne). cbn [mbind result_bind app].
  set (df0 := from_items _).
  destruct (add_metadata_values_spec s metadata_fields df0)
    as (df & Hfold & Hrows & Hcols).
  exists df. split; [exact Hfold|].
  split; [rewrite Hrows; subst df0; simpl;
          unfold float_column; rewrite !length_map; reflexivity|].
  assert (Hstat : forall f,
             f = "Mean" \/ f = "Median" \/ f = "Mode" \/ f = "Standard Deviation" ->
             columns df !! f = columns df0 !! f).
  { intros f Hf. rewrite Hcols.
    destruct (s !! f); [|reflexivity].
    rewrite decide_False by (apply statistic_not_metadata, Hf). reflexivity. }
  rewrite !Hstat by auto. subst df0. simpl.
  repeat split; reflexivity.
Qed.

(** ** Constant volumes *)

Local Open Scope float_scope.










Local Close Scope float_scope.

Example base_metrics_series :
  exists df,
    base_metrics env0 fs0 "/data/sub-{subject}_bold.nii" sub_a = Ok df /\
    nrows df = 2 /\
    columns df !! "Mean"
    = Some [CNum (Num 0x1.999999999999bp-4); CNum (Num 2)] /\
    columns df !! "Median"
    = Some [CNum (Num 0x1.999999999999ap-4); CNum (Num 2)] /\
    columns df !! "Mode"
    = Some [CNum (Num 0x1.999999999999ap-4); CNum (Num 2)] /\
    columns df !! "Standard Deviation"
    = Some [CNum (Num 0x1p-56); CNum (Num 0)] /\
    columns df !! "subject" = Some [CStr "a"; CStr "a"] /\
    columns df !! "task" = None.
Proof. eexists. split; [vm_compute; reflexivity|]. vm_compute. repeat split. Qed.





(** ** A missing file in mode (b) *)

Lemma base_metrics_missing (env : Env) (fs : gmap string file)
    (template : string) (s : gmap string string) (p : string) :
  resolve env template s = Ok p ->
  fs !! abspath_expanduser env p = None ->
  base_metrics env fs template s
  = Raise (FileNotFoundError (abspath_expanduser env p)).
Proof.
  intros Hres Hp. unfold base_metrics. rewrite Hres. cbn [mbind result_bind].
  unfold nib_load. rewrite Hp. reflexivity.
Qed.

(** C5: in mode (b) a record whose resolved path does not exist makes
    [base_metrics] raise [FileNotFoundError], and the whole batch call
    raises: no table is returned, no row of NaN stands in, and nothing is
    written. The exception is that [FileNotFoundError] when joblib gets a
    worker and the records before it are computed. *)
Theorem missing_file_aborts_base_metrics (env : Env) (fs : gmap string file)
    (template : string) (subs : list (gmap string string)) (save_as : string)
    (i : nat) (s : gmap string string) (p : string) :
  subs !! i = Some s ->
  resolve env template s = Ok p ->
  fs !! abspath_expanduser env p = None ->
  base_metrics env fs template s
  = Raise (FileNotFoundError (abspath_expanduser env p)) /\
  (exists e, iter_base_metrics env fs template subs save_as = (Raise e, fs)) /\
  (cpu_count env <> 2%Z ->
   Forall (fun r => exists df, base_metrics env fs template r = Ok df) (take i subs) ->
   iter_base_metrics env fs template subs save_as
   = (Raise (FileNotFoundError (abspath_expanduser env p)), fs)).
Proof.
  intros Hi Hres Hp.
  pose proof (base_metrics_missing env fs template s p Hres Hp) as Hs.
  split; [exact Hs|]. split.
  - destruct (Parallel_failure (fun s => base_metrics env fs template s)
                (n_jobs env) subs s _ (list_elem_of_lookup_2 _ _ _ Hi) Hs)
      as [e He].
    exists e. unfold iter_base_metrics. rewrite He. reflexivity.
  - intros Hcpu Hpre. unfold iter_base_metrics.
    rewrite Parallel_for_each by (rewrite n_jobs_zero; assumption).
    rewrite <- (take_drop_middle subs i s Hi).
    rewrite (for_each_first_failure _ _ _ _ _ Hpre Hs). reflexivity.
Qed.

Lemma missing_file_aborts_base_metrics_witness :
  iter_base_metrics env0 fs0 "/data/sub-{subject}_bold.nii" [sub_a; sub_b]
    "/out/metrics.csv"
  = (Raise (FileNotFoundError "/data/sub-b_bold.nii"), fs0).
Proof.
  refine (proj2 (proj2 (missing_file_aborts_base_metrics env0 fs0
                          "/data/sub-{subject}_bold.nii" [sub_a; sub_b]
                          "/out/metrics.csv" 1 sub_b "/data/sub-b_bold.nii"
                          eq_refl _ _)) _ _).
  - vm_compute. reflexivity.
  - vm_compute. reflexivity.
  - vm_compute. discriminate.
  - constructor; [|constructor]. eexists. vm_compute. reflexivity.
Defined.

(** ** Metadata columns in mode (b) *)

(** [pd.concat] keeps every column some frame has, and fills it with missing
    cells for the rows of the frames that lack it. *)
Lemma pd_concat_spec (frames : list DataFrame) (df : DataFrame) :
  pd_concat frames = Ok df ->
  nrows df = foldr (fun df n => nrows df + n) 0 frames /\
  forall f,
    columns df !! f =
    if decide (f ∈ all_columns frames)
    then Some (concat (map (column_or_missing f) frames))
    else None.
Proof.
  unfold pd_concat. destruct frames as [|df0 frames]; [discriminate|].
  intros [= <-]. split; [reflexivity|]. intros f. cbn [columns].
  set (cols := all_columns (df0 :: frames)).
  set (g := fun field : string =>
              (field, concat (map (column_or_missing field) (df0 :: frames)))).
  assert (Hinj : forall y y' : string,
             y ∈ cols -> y' ∈ cols -> (g y).1 = (g y').1 -> y = y')
    by (intros y y' _ _ H; exact H).
  destruct (decide (f ∈ cols)) as [Hin|Hnin].
  - apply (lookup_set_to_map g cols f _ Hinj). exists f. split; [exact Hin|reflexivity].
  - match goal with
    | |- ?m !! f = None => destruct (m !! f) as [x|] eqn:Hx; [|reflexivity]
    end.
    apply (lookup_set_to_map g cols f x Hinj) in Hx as (y & Hy & Hg).
    injection Hg as -> _. contradiction.
Qed.

Example iter_base_metrics_union_of_columns :
  exists df fs',
    iter_base_metrics env0 fs0 "/data/sub-{subject}_bold.nii"
      [sub_a; {[ "subject" := "a" ]}] "" = (Ok df, fs') /\
    nrows df = 4 /\
    columns df !! "subject" = Some [CStr "a"; CStr "a"; CStr "a"; CStr "a"] /\
    columns df !! "session" = Some [CStr "ofM"; CStr "ofM"; CMissing; CMissing].
Proof. eexists. eexists. split; [vm_compute; reflexivity|]. vm_compute. repeat split. Qed.

(** ** Further properties of the batch functions *)

Lemma iter_base_metrics_returns (env : Env) (fs fs' : gmap string file)
    (template : string) (subs : list (gmap string string)) (save_as : string)
    (df : DataFrame) :
  iter_base_metrics env fs template subs save_as = (Ok df, fs') ->
  exists frames,
    for_each (fun s => base_metrics env fs template s) subs = Ok frames /\
    pd_concat frames = Ok df /\
    save env fs df save_as = (None, fs').
Proof.
  unfold iter_base_metrics. intros Hiter.
  destruct (Z.eq_dec (n_jobs env) 0%Z) as [Hz|Hnz].
  - rewrite Hz in Hiter. discriminate.
  - rewrite Parallel_for_each in Hiter by assumption.
    destruct (for_each _ subs) as [frames|e] eqn:Hfor; [|discriminate].
    destruct (pd_concat frames) as [df0|e] eqn:Hcat; [|discriminate].
    destruct (save env fs df0 save_as) as [[e|] fs0] eqn:Hsave; [discriminate|].
    injection Hiter as <- <-. exists frames.
    split; [reflexivity|]. split; [exact Hcat|exact Hsave].
Qed.



Lemma save_frame (env : Env) (fs fs' : gmap string file) (df : DataFrame)
    (save_as : string) (r : option exn) :
  save env fs df save_as = (r, fs') ->
  (forall q, q <> abspath_expanduser env save_as -> fs' !! q = fs !! q) /\
  (save_as = "" -> fs' = fs) /\
  (forall e, r = Some e -> fs' = fs) /\
  (r = None -> save_as <> "" ->
   fs' !! abspath_expanduser env save_as = Some (Csv df)).
Proof.
  rewrite save_spec. destruct (decide (save_as = "")) as [->|Hne].
  - intros [= <- <-]. repeat split; try reflexivity; try discriminate. contradiction.
  - destruct (endswith _ _); intros [= <- <-].
    + split; [intros q Hq; apply lookup_insert_ne; congruence|].
      split; [contradiction|]. split; [discriminate|].
      intros _ _. apply lookup_insert_eq.
    + repeat split; try reflexivity; try contradiction. discriminate.
Qed.

(** X2: the only file a batch call touches is the save path. Whatever
    [iter_significant_signal] or [iter_base_metrics] returns or raises, every
    other path of the file system is as before; nothing at all changes when
    the save path is empty or when the call raises; and a returned table is
    what the save path then holds. *)
Theorem batch_writes_only_save_path (env : Env) (fs fs' : gmap string file)
    (template : string) (subs : list (gmap string string))
    (mask_path save_as : string) (r : result DataFrame) :
  iter_significant_signal env fs template subs mask_path save_as = (r, fs') \/
  iter_base_metrics env fs template subs save_as = (r, fs') ->
  (forall q, q <> abspath_expanduser env save_as -> fs' !! q = fs !! q) /\
  (save_as = "" -> fs' = fs) /\
  (forall e, r = Raise e -> fs' = fs) /\
  (forall df, r = Ok df -> save_as <> "" ->
     fs' !! abspath_expanduser env save_as = Some (Csv df)).
Proof.
  assert (Hgen : forall (first : result DataFrame * gmap string file),
             match first with
             | (Ok df, _) =>
                 match save env fs df save_as with
                 | (Some e, fs1) => (Raise e, fs1)
                 | (None, fs1) => (Ok df, fs1)
                 end
             | (Raise e, _) => (Raise e, fs)
             end = (r, fs') ->
             (forall q, q <> abspath_expanduser env save_as -> fs' !! q = fs !! q) /\
             (save_as = "" -> fs' = fs) /\
             (forall e, r = Raise e -> fs' = fs) /\
             (forall df, r = Ok df -> save_as <> "" ->
                fs' !! abspath_expanduser env save_as = Some (Csv df))).
  { intros [[df|e] fs0] H.
    - destruct (save env fs df save_as) as [[e|] fs1] eqn:Hsave;
        injection H as <- <-;
        destruct (save_frame _ _ _ _ _ _ Hsave) as (Hq & Hempty & Herr & Hok).
      + split; [assumption|]. split; [assumption|]. split.
        * intros e' _. eapply Herr. reflexivity.
        * discriminate.
      + split; [assumption|]. split; [assumption|]. split.
        * discriminate.
        * intros df' [= <-]. apply Hok. reflexivity.
    - injection H as <- <-. split; [reflexivity|]. split; [reflexivity|].
      split; [reflexivity|discriminate]. }
  intros [H|H].
  - rewrite iter_significant_signal_then_save in H. eapply Hgen, H.
  - rewrite iter_base_metrics_then_save in H. eapply Hgen, H.
Qed.

Lemma batch_writes_only_save_path_witness :
  snd (iter_base_metrics env0 fs0 "/data/sub-{subject}_bold.nii" [sub_a]
         "/out/metrics.csv") !! "/roi.nii"
  = fs0 !! "/roi.nii".
Proof.
  apply (proj1 (batch_writes_only_save_path env0 fs0 _
                  "/data/sub-{subject}_bold.nii" [sub_a] "" "/out/metrics.csv" _
                  (or_intror (surjective_pairing _)))).
  discriminate.
Defined.

(** The exception of a loop is the exception of one of its elements. *)
Lemma for_each_failure_origin {A B : Type} (f : A -> result B) (l : list A)
    (x : A) (e : exn) :
  x ∈ l -> f x = Raise e ->
  exists x' e', x' ∈ l /\ f x' = Raise e' /\ for_each f l = Raise e'.
Proof.
  induction l as [|y l IH]; intros Hin Hx.
  - inversion Hin.
  - cbn [for_each]. destruct (f y) as [r|e'] eqn:Hy.
    + apply elem_of_cons in Hin as [->|Hin]; [congruence|].
      destruct (IH Hin Hx) as (x' & e' & Hin' & Hx' & Hfor).
      exists x', e'. split; [apply elem_of_cons; auto|]. split; [exact Hx'|].
      cbn [mbind result_bind]. rewrite Hfor. reflexivity.
    + exists y, e'. split; [apply list_elem_of_here|]. split; [exact Hy|reflexivity].
Qed.

(** X3: the save path is looked at last. When a record's unit raises, on a
    machine where joblib gets a worker, each batch function raises the
    exception of one of its units and writes nothing, whatever the save
    path: an extension that would be refused is not even reported. *)
Theorem unit_failure_precedes_save (env : Env) (fs : gmap string file)
    (template : string) (subs : list (gmap string string))
    (mask_path save_as : string) :
  cpu_count env <> 2%Z ->
  (forall s e, s ∈ subs ->
     significant_signal env fs template s mask_path = Raise e ->
     exists s' e',
       s' ∈ subs /\
       significant_signal env fs template s' mask_path = Raise e' /\
       iter_significant_signal env fs template subs mask_path save_as
       = (Raise e', fs)) /\
  (forall s e, s ∈ subs ->
     base_metrics env fs template s = Raise e ->
     exists s' e',
       s' ∈ subs /\
       base_metrics env fs template s' = Raise e' /\
       iter_base_metrics env fs template subs save_as = (Raise e', fs)).
Proof.
  intros Hcpu.
  assert (Hnz : n_jobs env <> 0%Z) by (rewrite n_jobs_zero; assumption).
  split; intros s e Hin Hs.
  - destruct (for_each_failure_origin
                (fun s => significant_signal env fs template s mask_path)
                subs s e Hin Hs) as (s' & e' & Hin' & Hs' & Hfor).
    exists s', e'. split; [exact Hin'|]. split; [exact Hs'|].
    unfold iter_significant_signal.
    rewrite Parallel_for_each by assumption. rewrite Hfor. reflexivity.
  - destruct (for_each_failure_origin
                (fun s => base_metrics env fs template s)
                subs s e Hin Hs) as (s' & e' & Hin' & Hs' & Hfor).
    exists s', e'. split; [exact Hin'|]. split; [exact Hs'|].
    unfold iter_base_metrics.
    rewrite Parallel_for_each by assumption. rewrite Hfor. reflexivity.
Qed.

Lemma unit_failure_precedes_save_witness :
  exists s' e',
    s' ∈ [sub_a; sub_z] /\
    significant_signal env0 fs0 "/data/sub-{subject}.nii" s' "/roi.nii" = Raise e' /\
    iter_significant_signal env0 fs0 "/data/sub-{subject}.nii" [sub_a; sub_z]
      "/roi.nii" "/out/snr.txt" = (Raise e', fs0).
Proof.
  apply (proj1 (unit_failure_precedes_save env0 fs0 "/data/sub-{subject}.nii"
                  [sub_a; sub_z] "/roi.nii" "/out/snr.txt" ltac:(discriminate))
           sub_z
           (ValueError
              "zero-size array to reduction operation minimum which has no identity")).
  - apply list_elem_of_further, list_elem_of_here.
  - vm_compute. reflexivity.
Defined.

(** ** Loading the data and the mask *)

(** X4: only the data file may be missing. When the data file loads and a
    mask path is given whose file does not exist, [significant_signal]
    raises [FileNotFoundError] for the mask instead of returning the NaN
    pair, and a batch that holds the record raises and writes nothing. *)
Theorem missing_mask_raises (env : Env) (fs : gmap string file)
    (template : string) (s : gmap string string) (mask_path p : string)
    (img : ndarray) :
  resolve env template s = Ok p ->
  fs !! p = Some (Nifti img) ->
  mask_path <> "" ->
  fs !! abspath_expanduser env mask_path = None ->
  significant_signal env fs template s mask_path
  = Raise (FileNotFoundError (abspath_expanduser env mask_path)) /\
  forall subs save_as, s ∈ subs ->
    exists e,
      iter_significant_signal env fs template subs mask_path save_as = (Raise e, fs).
Proof.
  intros Hres Hp Hne Hmask.
  assert (Hs : significant_signal env fs template s mask_path
               = Raise (FileNotFoundError (abspath_expanduser env mask_path))).
  { unfold significant_signal. rewrite Hres. cbn [mbind result_bind].
    unfold nib_load at 1. rewrite Hp.
    unfold apply_mask. destruct mask_path as [|c rest]; [contradiction|].
    unfold nib_load. rewrite Hmask. reflexivity. }
  split; [exact Hs|]. intros subs save_as Hin.
  eapply iter_significant_signal_unit_failure; eassumption.
Qed.

Lemma missing_mask_raises_witness :
  significant_signal env0 fs0 "/data/sub-{subject}.nii" sub_a "/nowhere.nii"
  = Raise (FileNotFoundError "/nowhere.nii").
Proof.
  refine (proj1 (missing_mask_raises env0 fs0 "/data/sub-{subject}.nii" sub_a
                   "/nowhere.nii" "/data/sub-a.nii" pmap _ _ _ _)).
  - vm_compute. reflexivity.
  - vm_compute. reflexivity.
  - discriminate.
  - vm_compute. reflexivity.
Defined.

(** X5: a mask that has neither one voxel nor as many voxels as the data is
    refused: [significant_signal] raises [MaskError]. *)
Theorem mask_of_other_size_raises (env : Env) (fs : gmap string file)
    (template : string) (s : gmap string string) (mask_path p : string)
    (img mask : ndarray) :
  resolve env template s = Ok p ->
  fs !! p = Some (Nifti img) ->
  mask_path <> "" ->
  fs !! abspath_expanduser env mask_path = Some (Nifti mask) ->
  length (voxels mask) <> 1 ->
  length (voxels mask) <> length (voxels img) ->
  significant_signal env fs template s mask_path = Raise MaskError.
Proof.
  intros Hres Hp Hne Hmask Hone Hlen.
  unfold significant_signal. rewrite Hres. cbn [mbind result_bind].
  unfold nib_load at 1. rewrite Hp.
  unfold apply_mask. destruct mask_path as [|c rest]; [contradiction|].
  unfold nib_load. rewrite Hmask. cbn [mbind result_bind].
  unfold masked_array. rewrite length_map.
  destruct (Nat.eqb_spec (length (voxels mask)) (length (voxels img))) as [|_];
    [contradiction|].
  destruct (voxels mask) as [|m [|m' ms]]; simpl in *; try reflexivity.
  contradiction.
Qed.

Lemma mask_of_other_size_raises_witness :
  significant_signal env0 fs_coarse "/data/sub-{subject}.nii" sub_a
    "/roi-coarse.nii" = Raise MaskError.
Proof.
  apply (mask_of_other_size_raises env0 fs_coarse "/data/sub-{subject}.nii" sub_a
           "/roi-coarse.nii" "/data/sub-a.nii" pmap roi_coarse).
  - vm_compute. reflexivity.
  - vm_compute. reflexivity.
  - discriminate.
  - vm_compute. reflexivity.
  - intros H. vm_compute in H. discriminate.
  - intros H. vm_compute in H. discriminate.
Defined.

(** X6: a file that exists and is not an image is not taken for a missing
    one. [significant_signal] raises the load error instead of returning the
    NaN pair, and so does [base_metrics]. *)
Theorem unreadable_file_raises (env : Env) (fs : gmap string file)
    (template : string) (s : gmap string string) (mask_path p : string)
    (f : file) :
  resolve env template s = Ok p ->
  (forall img, f <> Nifti img) ->
  (fs !! p = Some f ->
   significant_signal env fs template s mask_path = Raise (ImageFileError p)) /\
  (fs !! abspath_expanduser env p = Some f ->
   base_metrics env fs template s
   = Raise (ImageFileError (abspath_expanduser env p))).
Proof.
  intros Hres Hf. split; intros Hp.
  - unfold significant_signal. rewrite Hres. cbn [mbind result_bind].
    unfold nib_load. rewrite Hp.
    destruct f as [img| |]; [destruct (Hf img eq_refl)| |]; reflexivity.
  - unfold base_metrics. rewrite Hres. cbn [mbind result_bind].
    unfold nib_load. rewrite Hp.
    destruct f as [img| |]; [destruct (Hf img eq_refl)| |]; reflexivity.
Qed.

Lemma unreadable_file_raises_witness :
  significant_signal env0 (<["/data/sub-b.nii" := Other]> fs0)
    "/data/sub-{subject}.nii" sub_b "/roi.nii"
  = Raise (ImageFileError "/data/sub-b.nii").
Proof.
  refine (proj1 (unreadable_file_raises env0 (<["/data/sub-b.nii" := Other]> fs0)
                   "/data/sub-{subject}.nii" sub_b "/roi.nii" "/data/sub-b.nii"
                   Other _ _) _).
  - vm_compute. reflexivity.
  - discriminate.
  - vm_compute. reflexivity.
Defined.

(** ** The mask shields the statistics from the background *)

Lemma compressed_same (l l' : list (float * bool)) :
  Forall2 same_unmasked l l' -> compressed l = compressed l'.
Proof.
  unfold compressed.
  induction 1 as [|[x m] [x' m'] l l' [Hm Hx] _ IH]; [reflexivity|].
  simpl in *. subst m'. destruct m; simpl; [exact IH|].
  rewrite IH, (Hx eq_refl). reflexivity.
Qed.

Lemma filled_same (l l' : list (float * bool)) :
  Forall2 same_unmasked l l' ->
  map (fun e : float * bool => if snd e then 0%float else fst e) l
  = map (fun e : float * bool => if snd e then 0%float else fst e) l'.
Proof.
  induction 1 as [|[x m] [x' m'] l l' [Hm Hx] _ IH]; [reflexivity|].
  simpl in *. subst m'. rewrite IH. destruct m; [reflexivity|].
  rewrite (Hx eq_refl). reflexivity.
Qed.

Lemma map_same_unmasked (g : float * bool -> float * bool)
    (l l' : list (float * bool)) :
  (forall e e', same_unmasked e e' -> same_unmasked (g e) (g e')) ->
  Forall2 same_unmasked l l' -> Forall2 same_unmasked (map g l) (map g l').
Proof.
  intros Hg. induction 1; simpl; constructor; auto.
Qed.

(** Lines 53-62 on a masked array see the unmasked entries only. *)
Lemma signal_statistics_same (env : Env) (l l' : list (float * bool)) :
  Forall2 same_unmasked l l' ->
  signal_statistics env (Masked l) = signal_statistics env (Masked l').
Proof.
  intros Hsame. unfold signal_statistics. cbn [nonzero].
  rewrite (compressed_same l l' Hsame).
  destruct (np_min _) as [data_min|e]; [|reflexivity].
  cbn [mbind result_bind replace_zeros neg_log10 ma_median mean].
  match goal with
  | |- context [compressed (map ?h (map ?g l))] =>
      assert (Hg : Forall2 same_unmasked (map h (map g l)) (map h (map g l')))
  end.
  { apply map_same_unmasked.
    - intros [x m] [x' m'] [Hm Hx]. simpl in *. subst m'.
      destruct m; simpl.
      + split; [reflexivity|discriminate].
      + rewrite (Hx eq_refl). split; reflexivity.
    - apply map_same_unmasked; [|exact Hsame].
      intros [x m] [x' m'] [Hm Hx]. simpl in *. subst m'.
      destruct m; simpl.
      + split; [reflexivity|discriminate].
      + rewrite (Hx eq_refl). split; reflexivity. }
  rewrite (compressed_same _ _ Hg), (filled_same _ _ Hg). reflexivity.
Qed.

Lemma masked_array_same_size (data : list float) (mask : list bool) :
  length data = length mask -> masked_array data mask = Ok (zip data mask).
Proof.
  intros Hlen. unfold masked_array.
  rewrite <- Hlen, Nat.eqb_refl.
  destruct mask as [|m [|m' mask]]; try reflexivity.
  destruct data as [|x [|x' data]]; try discriminate. reflexivity.
Qed.

Lemma zip_same_unmasked (mask : list bool) (data data' : list float) :
  length data = length mask -> length data' = length mask ->
  (forall i x x' m, data !! i = Some x -> data' !! i = Some x' ->
     mask !! i = Some m ->
     PrimFloat.is_nan x = PrimFloat.is_nan x' /\ (m = false -> x = x')) ->
  Forall2 same_unmasked
    (List.filter (fun e : float * bool => negb (PrimFloat.is_nan (fst e)))
       (zip data mask))
    (List.filter (fun e : float * bool => negb (PrimFloat.is_nan (fst e)))
       (zip data' mask)).
Proof.
  revert data data'. induction mask as [|m mask IH]; intros data data' Hlen Hlen' H.
  - destruct data, data'; try discriminate. constructor.
  - destruct data as [|x data], data' as [|x' data']; try discriminate.
    destruct (H 0 x x' m eq_refl eq_refl eq_refl) as [Hnan Hx].
    assert (Htail : Forall2 same_unmasked
              (List.filter (fun e : float * bool => negb (PrimFloat.is_nan (fst e)))
                 (zip data mask))
              (List.filter (fun e : float * bool => negb (PrimFloat.is_nan (fst e)))
                 (zip data' mask))).
    { apply IH; [simpl in *; lia..|].
      intros i y y' b Hy Hy' Hb. apply (H (S i) y y' b); assumption. }
    simpl. rewrite <- Hnan. destruct (PrimFloat.is_nan x); simpl; [exact Htail|].
    constructor; [|exact Htail]. split; [reflexivity|exact Hx].
Qed.

(** X7: with a mask of the size of the data, the statistics of mode (a)
    depend on the voxels inside the mask only. Two maps that agree wherever
    the mask is at least 0.5, and that have their NaN voxels at the same
    places, get the same result from [significant_signal], whatever they
    hold outside the mask. *)
Theorem masked_out_voxels_do_not_matter (env : Env) (fs fs' : gmap string file)
    (template : string) (s : gmap string string) (mask_path p : string)
    (img img' mask : ndarray) :
  resolve env template s = Ok p ->
  fs !! p = Some (Nifti img) ->
  fs' !! p = Some (Nifti img') ->
  mask_path <> "" ->
  fs !! abspath_expanduser env mask_path = Some (Nifti mask) ->
  fs' !! abspath_expanduser env mask_path = Some (Nifti mask) ->
  length (voxels img) = length (voxels mask) ->
  length (voxels img') = length (voxels mask) ->
  (forall i x x' m,
     voxels img !! i = Some x -> voxels img' !! i = Some x' ->
     voxels mask !! i = Some m ->
     PrimFloat.is_nan x = PrimFloat.is_nan x' /\
     ((m <? 0.5)%float = false -> x = x')) ->
  significant_signal env fs template s mask_path
  = significant_signal env fs' template s mask_path.
Proof.
  intros Hres Hp Hp' Hne Hmask Hmask' Hlen Hlen' Hagree.
  assert (Hload : forall (g : gmap string file) q a,
             g !! q = Some (Nifti a) -> nib_load g q = Ok a).
  { intros g q a Hq. unfold nib_load. rewrite Hq. reflexivity. }
  unfold significant_signal. rewrite Hres. cbn [mbind result_bind].
  rewrite (Hload _ _ _ Hp), (Hload _ _ _ Hp').
  unfold apply_mask. destruct mask_path as [|c rest]; [contradiction|].
  rewrite (Hload _ _ _ Hmask), (Hload _ _ _ Hmask'). cbn [mbind result_bind].
  rewrite !masked_array_same_size by (rewrite length_map; assumption).
  cbn [mbind result_bind].
  apply signal_statistics_same, zip_same_unmasked.
  - rewrite length_map. assumption.
  - rewrite length_map. assumption.
  - intros i x x' b Hx Hx' Hb.
    rewrite list_lookup_fmap in Hb.
    destruct (voxels mask !! i) as [m|] eqn:Hm; [|discriminate].
    injection Hb as <-. apply (Hagree i x x' m); assumption.
Qed.

Lemma masked_out_voxels_do_not_matter_witness :
  significant_signal env0 fs0 "/data/sub-{subject}.nii" sub_a "/roi.nii"
  = significant_signal env0 fs_background "/data/sub-{subject}.nii" sub_a "/roi.nii".
Proof.
  apply (masked_out_voxels_do_not_matter env0 fs0 fs_background
           "/data/sub-{subject}.nii" sub_a "/roi.nii" "/data/sub-a.nii"
           pmap pmap_background roi).
  - vm_compute. reflexivity.
  - vm_compute. reflexivity.
  - vm_compute. reflexivity.
  - discriminate.
  - vm_compute. reflexivity.
  - vm_compute. reflexivity.
  - reflexivity.
  - reflexivity.
  - intros i x x' m Hx Hx' Hm.
    do 6 (destruct i as [|i];
          [injection Hx as <-; injection Hx' as <-; injection Hm as <-;
           split; [reflexivity|intros H; first [reflexivity|vm_compute in H; discriminate]]|]).
    discriminate.
Defined.

Example background_biases_without_mask :
  significant_signal env0 fs0 "/data/sub-{subject}.nii" sub_a ""
  <> significant_signal env0 fs_background "/data/sub-{subject}.nii" sub_a "".
Proof. vm_compute. intros H. discriminate. Qed.

(** ** The table of one file in mode (b) *)

Lemma iter_T_length (img : ndarray) (vols : list (list float)) :
  iter_T img = Ok vols -> last (shape img) = Some (length vols).
Proof.
  unfold iter_T. destruct (last (shape img)) as [t|]; [|discriminate].
  intros [= <-]. rewrite length_map, length_seq. reflexivity.
Qed.

Lemma first_empty_slice (vols : list (list float)) :
  Forall (fun i => i <> []) vols \/
  exists pre post, vols = (pre ++ [] :: post)%list /\ Forall (fun i => i <> []) pre.
Proof.
  induction vols as [|i vols [IH|(pre & post & -> & Hpre)]].
  - left. constructor.
  - destruct i as [|x i].
    + right. exists [], vols. split; [reflexivity|constructor].
    + left. constructor; [discriminate|exact IH].
  - destruct i as [|x i].
    + right. exists [], (pre ++ [] :: post)%list. split; [reflexivity|constructor].
    + right. exists ((x :: i) :: pre), post. split; [reflexivity|].
      constructor; [discriminate|exact Hpre].
Qed.

(** What a successful call of [base_metrics] went through. *)
Lemma base_metrics_Ok (env : Env) (fs : gmap string file) (template : string)
    (s : gmap string string) (df : DataFrame) :
  base_metrics env fs template s = Ok df ->
  exists p img vols,
    resolve env template s = Ok p /\
    fs !! abspath_expanduser env p = Some (Nifti img) /\
    iter_T img = Ok vols /\
    Forall (fun i => i <> []) vols.
Proof.
  unfold base_metrics. intros H.
  destruct (resolve env template s) as [p|e]; [|discriminate].
  cbn [mbind result_bind] in H. unfold nib_load in H.
  destruct (fs !! abspath_expanduser env p) as [[img| |]|] eqn:Hp; try discriminate.
  cbn [mbind result_bind] in H.
  destruct (iter_T img) as [vols|e] eqn:Hvols; [|discriminate].
  cbn [mbind result_bind] in H.
  exists p, img, vols. split; [reflexivity|]. split; [exact Hp|].
  split; [exact Hvols|].
  destruct (first_empty_slice vols) as [Hne|(pre & post & -> & Hpre)]; [exact Hne|].
  rewrite metrics_loop_empty_slice in H by assumption. discriminate.
Qed.

Lemma metadata_not_statistic (f : string) :
  f ∈ metadata_fields -> f ∉ statistic_fields.
Proof.
  unfold metadata_fields, statistic_fields. intros Hin H.
  repeat (apply elem_of_cons in Hin as [->|Hin];
          [repeat (apply elem_of_cons in H as [H|H]; [discriminate|]);
           inversion H|]).
  inversion Hin.
Qed.

(** X8: the table of one file. When the file loads and no slice along the
    last axis is empty, [base_metrics] returns a table with one row per
    index of the last axis; every column has that many entries; each
    metadata field that the record has fills its column with the record's
    value, a field that it lacks gives no column, and there are no columns
    besides the four statistics and the metadata. *)
Theorem base_metrics_table (env : Env) (fs : gmap string file)
    (template : string) (s : gmap string string) (p : string)
    (img : ndarray) (vols : list (list float)) :
  resolve env template s = Ok p ->
  fs !! abspath_expanduser env p = Some (Nifti img) ->
  iter_T img = Ok vols ->
  Forall (fun i => i <> []) vols ->
  exists df,
    base_metrics env fs template s = Ok df /\
    last (shape img) = Some (nrows df) /\
    nrows df = length vols /\
    (forall f col, columns df !! f = Some col -> length col = nrows df) /\
    (forall f, f ∈ metadata_fields ->
       columns df !! f
       = (fun value => replicate (nrows df) (CStr value)) <$> s !! f) /\
    (forall f, is_Some (columns df !! f) ->
       f ∈ statistic_fields \/ f ∈ metadata_fields).
Proof.
  intros Hres Hp Hvols Hne.
  pose proof (iter_T_length img vols Hvols) as Hlast.
  unfold base_metrics.
  rewrite Hres. cbn [mbind result_bind].
  unfold nib_load. rewrite Hp. cbn [mbind result_bind].
  rewrite Hvols. cbn [mbind result_bind].
  rewrite (metrics_loop_spec vols [] [] [] [] Hne). cbn [mbind result_bind app].
  set (df0 := from_items _).
  assert (Hn0 : nrows df0 = length vols).
  { subst df0. simpl. unfold float_column. rewrite !length_map. reflexivity. }
  assert (Hcols0 : forall f,
             columns df0 !! f =
             if decide (f = "Mean") then Some (float_column (map np_mean vols))
             else if decide (f = "Median") then Some (float_column (map np_median vols))
             else if decide (f = "Mode") then Some (float_column (map mode_of vols))
             else if decide (f = "Standard Deviation")
                  then Some (float_column (map np_std vols))
             else None).
  { intros f. subst df0. simpl.
    destruct (decide (f = "Mean")) as [->|H1]; [reflexivity|].
    rewrite lookup_insert_ne by congruence.
    destruct (decide (f = "Median")) as [->|H2]; [reflexivity|].
    rewrite lookup_insert_ne by congruence.
    destruct (decide (f = "Mode")) as [->|H3]; [reflexivity|].
    rewrite lookup_insert_ne by congruence.
    destruct (decide (f = "Standard Deviation")) as [->|H4]; [reflexivity|].
    rewrite lookup_insert_ne by congruence. reflexivity. }
  destruct (add_metadata_values_spec s metadata_fields df0)
    as (df & Hfold & Hrows & Hcols).
  exists df. split; [exact Hfold|].
  split; [rewrite Hrows, Hn0; exact Hlast|].
  split; [congruence|].
  assert (Hmeta0 : forall f, f ∈ metadata_fields -> columns df0 !! f = None).
  { intros f Hin. rewrite Hcols0.
    pose proof (metadata_not_statistic f Hin) as Hns. unfold statistic_fields in Hns.
    destruct (decide (f = "Mean")) as [->|_]; [exfalso; apply Hns; repeat constructor|].
    destruct (decide (f = "Median")) as [->|_]; [exfalso; apply Hns; repeat constructor|].
    destruct (decide (f = "Mode")) as [->|_]; [exfalso; apply Hns; repeat constructor|].
    destruct (decide (f = "Standard Deviation")) as [->|_];
      [exfalso; apply Hns; repeat constructor|].
    reflexivity. }
  split; [|split].
  - intros f col Hf. rewrite Hcols in Hf. rewrite Hrows.
    assert (H0 : columns df0 !! f = Some col -> length col = nrows df0).
    { rewrite Hcols0, Hn0. unfold float_column.
      destruct (decide (f = "Mean"));
        [intros [= <-]; rewrite !length_map; reflexivity|].
      destruct (decide (f = "Median"));
        [intros [= <-]; rewrite !length_map; reflexivity|].
      destruct (decide (f = "Mode"));
        [intros [= <-]; rewrite !length_map; reflexivity|].
      destruct (decide (f = "Standard Deviation"));
        [intros [= <-]; rewrite !length_map; reflexivity|].
      intros H0. discriminate H0. }
    destruct (s !! f); [|exact (H0 Hf)].
    destruct (decide (f ∈ metadata_fields)); [|exact (H0 Hf)].
    injection Hf as <-. apply length_replicate.
  - intros f Hin. rewrite Hcols, Hrows.
    destruct (s !! f); simpl.
    + rewrite decide_True by assumption. reflexivity.
    + apply Hmeta0, Hin.
  - intros f [col Hf]. rewrite Hcols in Hf.
    assert (H0 : columns df0 !! f = Some col -> f ∈ statistic_fields).
    { rewrite Hcols0. unfold statistic_fields.
      destruct (decide (f = "Mean")) as [->|_]; [intros _; repeat constructor|].
      destruct (decide (f = "Median")) as [->|_]; [intros _; repeat constructor|].
      destruct (decide (f = "Mode")) as [->|_]; [intros _; repeat constructor|].
      destruct (decide (f = "Standard Deviation")) as [->|_]; [intros _; repeat constructor|].
      intros H0. discriminate H0. }
    destruct (s !! f); [|left; exact (H0 Hf)].
    destruct (decide (f ∈ metadata_fields)); [right; assumption|left; exact (H0 Hf)].
Qed.

Lemma base_metrics_table_witness :
  exists df,
    base_metrics env0 fs0 "/data/sub-{subject}_bold.nii" sub_a = Ok df /\
    nrows df = 2 /\
    columns df !! "session" = Some [CStr "ofM"; CStr "ofM"] /\
    columns df !! "task" = None.
Proof.
  destruct (base_metrics_table env0 fs0 "/data/sub-{subject}_bold.nii" sub_a
              "/data/sub-a_bold.nii" series
              [replicate 3 0x1.999999999999ap-4%float; replicate 3 2%float])
    as (df & Hdf & _ & Hrows & _ & Hmeta & _).
  - vm_compute. reflexivity.
  - vm_compute. reflexivity.
  - vm_compute. reflexivity.
  - repeat constructor; discriminate.
  - exists df. split; [exact Hdf|]. split; [exact Hrows|].
    split.
    + rewrite (Hmeta "session"), Hrows.
      * reflexivity.
      * apply list_elem_of_further, list_elem_of_here.
    + rewrite (Hmeta "task").
      * reflexivity.
      * do 2 apply list_elem_of_further. apply list_elem_of_here.
Defined.

(** ** The stacked table of mode (b) *)

(** Every table that [base_metrics] returns is rectangular, has the four
    statistic columns, and has a metadata column exactly for the fields of
    its record. *)
Lemma base_metrics_frame (env : Env) (fs : gmap string file) (template : string)
    (s : gmap string string) (fr : DataFrame) :
  base_metrics env fs template s = Ok fr ->
  (forall f col, columns fr !! f = Some col -> length col = nrows fr) /\
  (forall f, f ∈ metadata_fields ->
     columns fr !! f = (fun value => replicate (nrows fr) (CStr value)) <$> s !! f) /\
  (forall f, f ∈ statistic_fields -> is_Some (columns fr !! f)).
Proof.
  intros Hfr.
  destruct (base_metrics_Ok env fs template s fr Hfr)
    as (p & img & vols & Hres & Hp & Hvols & Hne).
  destruct (base_metrics_table env fs template s p img vols Hres Hp Hvols Hne)
    as (df & Hdf & _ & _ & Hwf & Hmeta & _).
  destruct (base_metrics_spec env fs template s p img vols Hres Hp Hvols Hne)
    as (df' & Hdf' & _ & Hmean & Hmedian & Hmode & Hstd).
  assert (df = fr) by congruence. assert (df' = fr) by congruence. subst df df'.
  split; [exact Hwf|]. split; [exact Hmeta|].
  intros f Hin. unfold statistic_fields in Hin.
  repeat (apply elem_of_cons in Hin as [->|Hin]; [eauto|]).
  inversion Hin.
Qed.

Lemma pd_concat_nrows (frames : list DataFrame) :
  foldr (fun df n => nrows df + n) 0 frames = sum_list (map nrows frames).
Proof. induction frames as [|fr frames IH]; simpl; [reflexivity|]. rewrite IH. reflexivity. Qed.

Lemma column_or_missing_length (f : string) (fr : DataFrame) :
  (forall col, columns fr !! f = Some col -> length col = nrows fr) ->
  length (column_or_missing f fr) = nrows fr.
Proof.
  intros Hwf. unfold column_or_missing.
  destruct (columns fr !! f) as [col|]; simpl.
  - apply Hwf. reflexivity.
  - apply length_replicate.
Qed.

Lemma stacked_column_length (f : string) (frames : list DataFrame) :
  Forall (fun fr => forall g col, columns fr !! g = Some col -> length col = nrows fr)
         frames ->
  length (concat (map (column_or_missing f) frames)) = sum_list (map nrows frames).
Proof.
  induction 1 as [|fr frames Hfr _ IH]; simpl; [reflexivity|].
  rewrite length_app, IH, column_or_missing_length by (apply Hfr). reflexivity.
Qed.

Lemma elem_of_all_columns (f : string) (frames : list DataFrame) :
  f ∈ all_columns frames <-> exists fr, fr ∈ frames /\ is_Some (columns fr !! f).
Proof.
  unfold all_columns. rewrite elem_of_union_list. split.
  - intros (X & HX & Hf). apply list_elem_of_fmap in HX as (fr & -> & Hfr).
    exists fr. split; [exact Hfr|]. apply elem_of_dom. exact Hf.
  - intros (fr & Hfr & Hf). exists (dom (columns fr)). split.
    + apply list_elem_of_fmap. exists fr. split; [reflexivity|exact Hfr].
    + apply elem_of_dom. exact Hf.
Qed.

Lemma Forall2_right {A B : Type} (P : A -> B -> Prop) (Q : B -> Prop)
    (l : list A) (k : list B) :
  (forall x y, P x y -> Q y) -> Forall2 P l k -> Forall Q k.
Proof. intros HPQ. induction 1; constructor; eauto. Qed.

(** X9: the table of a batch of mode (b) is the stack of the tables of its
    records, in order. Its number of rows is the sum of theirs, every column
    has that many entries, and each statistic column is the concatenation of
    the records' columns. *)
Theorem iter_base_metrics_stacks (env : Env) (fs fs' : gmap string file)
    (template : string) (subs : list (gmap string string)) (save_as : string)
    (df : DataFrame) :
  iter_base_metrics env fs template subs save_as = (Ok df, fs') ->
  exists frames,
    Forall2 (fun s fr => base_metrics env fs template s = Ok fr) subs frames /\
    nrows df = sum_list (map nrows frames) /\
    (forall f col, columns df !! f = Some col -> length col = nrows df) /\
    (forall f, f ∈ statistic_fields ->
       exists cols,
         Forall2 (fun fr col => columns fr !! f = Some col) frames cols /\
         columns df !! f = Some (concat cols)).
Proof.
  intros Hiter.
  destruct (iter_base_metrics_returns _ _ _ _ _ _ _ Hiter)
    as (frames & Hfor & Hcat & _).
  apply for_each_Ok in Hfor.
  destruct (pd_concat_spec frames df Hcat) as [Hrows Hcols].
  rewrite pd_concat_nrows in Hrows.
  assert (Hwf : Forall (fun fr => forall g col,
                          columns fr !! g = Some col -> length col = nrows fr) frames).
  { eapply Forall2_right; [|exact Hfor]. intros s fr Hs.
    apply (base_metrics_frame env fs template s fr Hs). }
  exists frames. split; [exact Hfor|]. split; [exact Hrows|]. split.
  - intros f col Hf. rewrite Hcols in Hf.
    destruct (decide (f ∈ all_columns frames)); [|discriminate].
    injection Hf as <-. rewrite Hrows. apply stacked_column_length, Hwf.
  - intros f Hin.
    assert (Hall : Forall (fun fr => is_Some (columns fr !! f)) frames).
    { eapply Forall2_right; [|exact Hfor]. intros s fr Hs.
      apply (base_metrics_frame env fs template s fr Hs), Hin. }
    exists (map (column_or_missing f) frames). split.
    + clear -Hall. induction Hall as [|fr frames [col Hcol] _ IH]; simpl;
        constructor; [|exact IH].
      unfold column_or_missing. rewrite Hcol. reflexivity.
    + rewrite Hcols. rewrite decide_True; [reflexivity|].
      apply elem_of_all_columns.
      destruct frames as [|fr frames]; [discriminate Hcat|].
      exists fr. split; [apply list_elem_of_here|].
      inversion Hall; assumption.
Qed.

Lemma iter_base_metrics_stacks_witness :
  exists df fs',
    iter_base_metrics env0 fs0 "/data/sub-{subject}_bold.nii"
      [sub_a; {[ "subject" := "a" ]}] "" = (Ok df, fs') /\
    nrows df = 4 /\
    (forall f col, columns df !! f = Some col -> length col = 4).
Proof.
  destruct (iter_base_metrics env0 fs0 "/data/sub-{subject}_bold.nii"
              [sub_a; {[ "subject" := "a" ]}] "") as [[df|e] fs'] eqn:Hiter.
  - destruct (iter_base_metrics_stacks env0 fs0 fs' _ _ _ df Hiter)
      as (frames & Hfor & Hrows & Hwf & _).
    assert (Hsum : sum_list (map nrows frames) = 4).
    { inversion Hfor as [|s1 fr1 l1 k1 H1 Hfor1]; subst.
      inversion Hfor1 as [|s2 fr2 l2 k2 H2 Hfor2]; subst.
      inversion Hfor2; subst.
      vm_compute in H1. vm_compute in H2.
      injection H1 as <-. injection H2 as <-. reflexivity. }
    exists df, fs'. split; [reflexivity|]. split; [congruence|].
    intros f col Hf. rewrite (Hwf f col Hf). congruence.
  - vm_compute in Hiter. discriminate.
Defined.

Lemma stacked_metadata_blocks (env : Env) (fs : gmap string file)
    (template : string) (f : string) (subs : list (gmap string string))
    (frames : list DataFrame) :
  f ∈ metadata_fields ->
  Forall2 (fun s fr => base_metrics env fs template s = Ok fr) subs frames ->
  concat (map (column_or_missing f) frames)
  = concat (zip_with (fun s fr => metadata_block f s (nrows fr)) subs frames) /\
  ((exists fr, fr ∈ frames /\ is_Some (columns fr !! f)) <->
   (exists s, s ∈ subs /\ is_Some (s !! f))).
Proof.
  intros Hin. induction 1 as [|s fr subs frames Hs _ [IHcol IHex]].
  - split; [reflexivity|]. split; intros (x & Hx & _); inversion Hx.
  - destruct (base_metrics_frame env fs template s fr Hs) as (_ & Hmeta & _).
    specialize (Hmeta f Hin).
    split.
    + cbn [map zip_with concat]. rewrite IHcol. f_equal.
      unfold column_or_missing, metadata_block. rewrite Hmeta.
      destruct (s !! f); reflexivity.
    + split.
      * intros (fr' & Hfr' & Hsome). apply elem_of_cons in Hfr' as [->|Hfr'].
        -- exists s. split; [apply list_elem_of_here|].
           rewrite Hmeta in Hsome. destruct (s !! f); [eauto|].
           destruct Hsome as [x Hx]. discriminate.
        -- destruct (proj1 IHex (ex_intro _ fr' (conj Hfr' Hsome))) as (s' & Hs' & Hk).
           exists s'. split; [apply list_elem_of_further, Hs'|exact Hk].
      * intros (s' & Hs' & Hk). apply elem_of_cons in Hs' as [->|Hs'].
        -- exists fr. split; [apply list_elem_of_here|].
           rewrite Hmeta. destruct Hk as [v ->]. eauto.
        -- destruct (proj2 IHex (ex_intro _ s' (conj Hs' Hk))) as (fr' & Hfr' & Hsome).
           exists fr'. split; [apply list_elem_of_further, Hfr'|exact Hsome].
Qed.

(** X10: the metadata columns of a batch of mode (b). A metadata column
    (subject, session, task, acquisition) is present as soon as one record has
    the key; it holds, record after record, the record's value in each of
    its rows, and missing cells in the rows of a record that lacks the
    key. *)
Theorem iter_base_metrics_metadata (env : Env) (fs fs' : gmap string file)
    (template : string) (subs : list (gmap string string)) (save_as : string)
    (df : DataFrame) :
  iter_base_metrics env fs template subs save_as = (Ok df, fs') ->
  exists frames,
    Forall2 (fun s fr => base_metrics env fs template s = Ok fr) subs frames /\
    forall f, f ∈ metadata_fields ->
      (is_Some (columns df !! f) <-> exists s, s ∈ subs /\ is_Some (s !! f)) /\
      (forall col, columns df !! f = Some col ->
         col = concat (zip_with (fun s fr => metadata_block f s (nrows fr))
                                subs frames)).
Proof.
  intros Hiter.
  destruct (iter_base_metrics_returns _ _ _ _ _ _ _ Hiter)
    as (frames & Hfor & Hcat & _).
  apply for_each_Ok in Hfor.
  destruct (pd_concat_spec frames df Hcat) as [_ Hcols].
  exists frames. split; [exact Hfor|]. intros f Hin.
  destruct (stacked_metadata_blocks env fs template f subs frames Hin Hfor)
    as [Hblocks Hex].
  rewrite Hcols. destruct (decide (f ∈ all_columns frames)) as [Hall|Hnall].
  - split.
    + split; [intros _|intros _; eauto].
      apply Hex, elem_of_all_columns, Hall.
    + intros col [= <-]. exact Hblocks.
  - split.
    + split; [intros [x Hx]; discriminate|].
      intros Hs. exfalso. apply Hnall, elem_of_all_columns, Hex, Hs.
    + intros col Hcol. discriminate.
Qed.

Lemma iter_base_metrics_metadata_witness :
  exists df fs',
    iter_base_metrics env0 fs0 "/data/sub-{subject}_bold.nii"
      [sub_a; {[ "subject" := "a" ]}] "" = (Ok df, fs') /\
    columns df !! "session" = Some [CStr "ofM"; CStr "ofM"; CMissing; CMissing].
Proof.
  destruct (iter_base_metrics env0 fs0 "/data/sub-{subject}_bold.nii"
              [sub_a; {[ "subject" := "a" ]}] "") as [[df|e] fs'] eqn:Hiter.
  - destruct (iter_base_metrics_metadata env0 fs0 fs' _ _ _ df Hiter)
      as (frames & Hfor & Hmeta).
    destruct (Hmeta "session") as [Hsome Hcol].
    { apply list_elem_of_further, list_elem_of_here. }
    exists df, fs'. split; [reflexivity|].
    destruct (proj2 Hsome) as [col Hdf].
    { exists sub_a. split; [apply list_elem_of_here|]. vm_compute. eauto. }
    rewrite Hdf. f_equal. rewrite (Hcol col Hdf).
    inversion Hfor as [|s1 fr1 l1 k1 H1 Hfor1]; subst.
    inversion Hfor1 as [|s2 fr2 l2 k2 H2 Hfor2]; subst.
    inversion Hfor2; subst.
    vm_compute in H1. vm_compute in H2.
    injection H1 as <-. injection H2 as <-. vm_compute. reflexivity.
  - vm_compute in Hiter. discriminate.
Defined.

(** ** NaN voxels in mode (b) *)

Local Open Scope float_scope.

Lemma sub_nan_r (x : float) : x - nan = nan.
Proof.
  apply Prim2SF_inj. rewrite sub_spec. change (Prim2SF nan) with S754_nan.
  destruct (Prim2SF x); reflexivity.
Qed.

Lemma np_std_nan (l : list float) : In nan l -> np_std l = nan.
Proof.
  intros Hin. unfold np_std. rewrite (np_mean_nan l Hin).
  rewrite np_mean_nan; [reflexivity|].
  apply List.in_map_iff. exists nan. split; [|exact Hin].
  rewrite sub_nan_r. reflexivity.
Qed.

Lemma np_median_nan (l : list float) : In nan l -> np_median l = nan.
Proof.
  intros Hin. unfold np_median.
  replace (existsb is_nan l) with true; [reflexivity|].
  symmetry. apply existsb_exists. exists nan. split; [exact Hin|reflexivity].
Qed.

Local Close Scope float_scope.

(** X11: mode (b) does not filter NaN. When the file loads and no slice is
    empty, a slice that holds a NaN voxel gets NaN as its mean, its median
    and its standard deviation in the table of [base_metrics]. *)
Theorem nan_voxel_poisons_row (env : Env) (fs : gmap string file)
    (template : string) (s : gmap string string) (p : string)
    (img : ndarray) (vols : list (list float)) (t : nat) (vol : list float) :
  resolve env template s = Ok p ->
  fs !! abspath_expanduser env p = Some (Nifti img) ->
  iter_T img = Ok vols ->
  Forall (fun i => i <> []) vols ->
  vols !! t = Some vol ->
  Exists (fun x => PrimFloat.is_nan x = true) vol ->
  exists df means medians stds,
    base_metrics env fs template s = Ok df /\
    columns df !! "Mean" = Some means /\
    columns df !! "Median" = Some medians /\
    columns df !! "Standard Deviation" = Some stds /\
    means !! t = Some (CNum (Num nan)) /\
    medians !! t = Some (CNum (Num nan)) /\
    stds !! t = Some (CNum (Num nan)).
Proof.
  intros Hres Hp Hvols Hne Ht Hex.
  assert (Hin : In nan vol).
  { apply List.Exists_exists in Hex as (x & Hx & Hnan).
    apply is_nan_eq in Hnan. subst x. exact Hx. }
  destruct (base_metrics_spec env fs template s p img vols Hres Hp Hvols Hne)
    as (df & Hdf & _ & Hmean & Hmedian & _ & Hstd).
  exists df, (float_column (map np_mean vols)),
    (float_column (map np_median vols)), (float_column (map np_std vols)).
  split; [exact Hdf|]. split; [exact Hmean|]. split; [exact Hmedian|].
  split; [exact Hstd|].
  unfold float_column. rewrite !list_lookup_fmap, Ht. simpl.
  rewrite (np_mean_nan vol Hin), (np_median_nan vol Hin), (np_std_nan vol Hin).
  repeat split.
Qed.

Lemma nan_voxel_poisons_row_witness :
  exists df means,
    base_metrics env0 fs_nan "/data/sub-{subject}_bold.nii" sub_n = Ok df /\
    columns df !! "Mean" = Some means /\
    means !! 1 = Some (CNum (Num nan)).
Proof.
  destruct (nan_voxel_poisons_row env0 fs_nan "/data/sub-{subject}_bold.nii" sub_n
              "/data/sub-n_bold.nii" series_nan
              [[1; 1; 1]%float; [2; nan; 2]%float] 1 [2; nan; 2]%float)
    as (df & means & medians & stds & Hdf & Hmean & _ & _ & Hm & _).
  - vm_compute. reflexivity.
  - vm_compute. reflexivity.
  - vm_compute. reflexivity.
  - repeat constructor; discriminate.
  - reflexivity.
  - apply List.Exists_exists. exists nan. split; [|reflexivity].
    simpl. right. left. reflexivity.
  - exists df, means. split; [exact Hdf|]. split; [exact Hmean|exact Hm].
Defined.

(** ** Path resolution: which keys matter *)





Lemma render_plain_total (d : gmap string string) (tokens : list token) :
  forallb plain_token tokens = true ->
  (forall k, k ∈ concat (map field_key tokens) -> is_Some (d !! k)) ->
  exists out, render d tokens = Ok out.
Proof.
  induction tokens as [|t tokens IH]; intros Hplain Hkeys.
  - eexists. reflexivity.
  - cbn [forallb] in Hplain. apply andb_prop in Hplain as [Ht Hplain].
    destruct IH as [out Hout]; [exact Hplain| |].
    { intros k Hk. apply Hkeys. cbn [map concat]. apply elem_of_app. auto. }
    destruct t as [text|field|e]; cbn [render]; [| |discriminate].
    + rewrite Hout. eexists. reflexivity.
    + assert (Hfield : exists value, render_field d field = Ok value).
      { specialize (Hkeys (fst (split_field field))).
        unfold render_field. cbn [map concat field_key] in Hkeys.
        cbn [plain_token] in Ht.
        destruct (split_field field) as [key rest]. simpl in *.
        apply andb_prop in Ht as [Hpos Hrest].
        apply negb_true_iff in Hpos. rewrite Hpos in *.
        apply String.eqb_eq in Hrest as ->.
        destruct Hkeys as [value ->]; [apply elem_of_app; left; apply list_elem_of_here|].
        eexists. reflexivity. }
      destruct Hfield as [value ->]. cbn [mbind result_bind].
      rewrite Hout. eexists. reflexivity.
Qed.

(** X13: a record that has every key resolves. For a format string of
    literal text and plain named fields and a record that is not empty and
    has all the keys the format string refers to, path resolution returns a
    path. *)
Theorem resolve_with_all_keys (env : Env) (template : string)
    (d : gmap string string) :
  d <> ∅ ->
  plain template = true ->
  (forall k, k ∈ placeholders template -> is_Some (d !! k)) ->
  exists p, resolve env template d = Ok p.
Proof.
  intros Hd Hplain Hkeys.
  destruct (render_plain_total d (tokenize template) Hplain Hkeys) as [out Hout].
  exists (abspath_expanduser env out).
  rewrite resolve_nonempty by assumption. unfold format. rewrite Hout. reflexivity.
Qed.

Lemma resolve_with_all_keys_witness :
  exists p, resolve env0 "/data/sub-{subject}_ses-{session}.nii" sub_a = Ok p.
Proof.
  apply (resolve_with_all_keys env0 "/data/sub-{subject}_ses-{session}.nii" sub_a).
  - intros H. apply (f_equal (fun m : gmap string string => m !! "subject")) in H.
    vm_compute in H. discriminate.
  - vm_compute. reflexivity.
  - intros k Hk. vm_compute in Hk.
    apply elem_of_cons in Hk as [->|Hk]; [vm_compute; eauto|].
    apply list_elem_of_singleton in Hk as ->. vm_compute. eauto.
Defined.
